(** * handler.py: freight loads against the Rateview market rate

    A shallow embedding of [handler.py] and the properties of its
    specification.  The program is dynamically typed Python over parsed
    JSON, so the embedding has

    - [value], the JSON documents Python's [json] module produces;
    - [res], a result that is either a value or a raised exception, for
      the operations Python may refuse ([.get] on a non-dict, [>] on a
      string, ...);
    - [SE], state passing on top of [res], used twice: for the outside
      world of the HTTP transport and for the local variables of the one
      [try] block whose assignments survive an exception;
    - binary64 floats as [spec_float] with precision 53 and maximal
      exponent 1024, the operations being those of [SpecFloat].
*)

From Stdlib Require Import ZArith List String Ascii Bool Lia.
From Stdlib Require Import SpecFloat.
From Stdlib Require Import DecimalString.
Import ListNotations.

Open Scope string_scope.
Open Scope Z_scope.

(* ------------------------------------------------------------------ *)
(** ** Values and exceptions *)

(** A dict is the list of its items in insertion order.  The keys of a
    Python dict are distinct; lookup takes the first binding of a key. *)
#[warnings="-register-all"]
Inductive value : Type :=
| VNone
| VBool (b : bool)
| VInt (z : Z)
| VFloat (f : spec_float)
| VStr (s : string)
| VList (l : list value)
| VDict (d : list (string * value)).

Inductive exn_class : Type :=
| AttributeError
| TypeError
| KeyError
| IndexError
| ZeroDivisionError
| OverflowError
| OtherError (name : string).

(** [exn_msg e] is [str(e)]. *)
Record exn : Type := Exn { exn_kind : exn_class; exn_msg : string }.

Inductive res (A : Type) : Type :=
| Ok (a : A)
| Raise (e : exn).
Arguments Ok {A} a.
Arguments Raise {A} e.

Definition rbind {A B} (m : res A) (k : A -> res B) : res B :=
  match m with
  | Ok a => k a
  | Raise e => Raise e
  end.

Declare Scope res_scope.
Delimit Scope res_scope with res.
Notation "x <- m ;; k" := (rbind m (fun x => k))
  (at level 61, m at next level, right associativity) : res_scope.
Notation "' p <- m ;; k" := (rbind m (fun x => let p := x in k))
  (at level 61, p pattern, m at next level, right associativity) : res_scope.

(** State passing with exceptions: the state is still there when the
    computation raises. *)
Definition SE (S A : Type) : Type := S -> res A * S.

Definition ret {S A} (a : A) : SE S A := fun s => (Ok a, s).
Definition lift {S A} (m : res A) : SE S A := fun s => (m, s).
Definition bind {S A B} (m : SE S A) (k : A -> SE S B) : SE S B :=
  fun s =>
    match m s with
    | (Ok a, s') => k a s'
    | (Raise e, s') => (Raise e, s')
    end.
Definition modify {S} (f : S -> S) : SE S unit := fun s => (Ok tt, f s).

Declare Scope se_scope.
Delimit Scope se_scope with se.
Notation "x <- m ;; k" := (bind m (fun x => k))
  (at level 61, m at next level, right associativity) : se_scope.
Notation "' p <- m ;; k" := (bind m (fun x => let p := x in k))
  (at level 61, p pattern, m at next level, right associativity) : se_scope.
Notation "m ;;; k" := (bind m (fun _ => k))
  (at level 61, right associativity) : se_scope.

(* ------------------------------------------------------------------ *)
(** ** Builtins on values *)

Definition type_name (v : value) : string :=
  match v with
  | VNone => "NoneType"
  | VBool _ => "bool"
  | VInt _ => "int"
  | VFloat _ => "float"
  | VStr _ => "str"
  | VList _ => "list"
  | VDict _ => "dict"
  end.

Definition is_dict (v : value) : bool :=
  match v with
  | VDict _ => true
  | _ => false
  end.

Definition float_is_zero (f : spec_float) : bool :=
  match f with
  | S754_zero _ => true
  | _ => false
  end.

(** [bool(v)]: what [if v], [not v] and [and] test. *)
Definition truthy (v : value) : bool :=
  match v with
  | VNone => false
  | VBool b => b
  | VInt z => negb (z =? 0)
  | VFloat f => negb (float_is_zero f)
  | VStr s => negb (String.eqb s "")
  | VList l => match l with [] => false | _ => true end
  | VDict d => match d with [] => false | _ => true end
  end.

Fixpoint assoc {V : Type} (k : string) (d : list (string * V)) : option V :=
  match d with
  | [] => None
  | (k', v) :: d' => if String.eqb k k' then Some v else assoc k d'
  end.

Definition no_attribute (v : value) (attr : string) : exn :=
  Exn AttributeError
      ("'" ++ type_name v ++ "' object has no attribute '" ++ attr ++ "'").

(** [obj.get(key, default)] *)
Definition py_get (obj : value) (key : string) (default : value) : res value :=
  match obj with
  | VDict d => Ok match assoc key d with
                  | Some v => v
                  | None => default
                  end
  | _ => Raise (no_attribute obj "get")
  end.

(** [obj[key]] for a string [key] *)
Definition py_getitem (obj : value) (key : string) : res value :=
  match obj with
  | VDict d => match assoc key d with
               | Some v => Ok v
               | None => Raise (Exn KeyError ("'" ++ key ++ "'"))
               end
  | VList _ =>
      Raise (Exn TypeError "list indices must be integers or slices, not str")
  | VStr _ => Raise (Exn TypeError "string indices must be integers, not 'str'")
  | _ => Raise (Exn TypeError
                    ("'" ++ type_name obj ++ "' object is not subscriptable"))
  end.

(** [obj[0]] *)
Definition py_getitem0 (obj : value) : res value :=
  match obj with
  | VDict _ => Raise (Exn KeyError "0")
  | VList l => match l with
               | x :: _ => Ok x
               | [] => Raise (Exn IndexError "list index out of range")
               end
  | VStr s => match s with
              | String c _ => Ok (VStr (String c ""))
              | EmptyString => Raise (Exn IndexError "string index out of range")
              end
  | _ => Raise (Exn TypeError
                    ("'" ++ type_name obj ++ "' object is not subscriptable"))
  end.

Definition is_str (s : string) (v : value) : bool :=
  match v with
  | VStr t => String.eqb s t
  | _ => false
  end.

Fixpoint is_prefix (p s : string) : bool :=
  match p, s with
  | EmptyString, _ => true
  | String a p', String b s' => Ascii.eqb a b && is_prefix p' s'
  | String _ _, EmptyString => false
  end.

Fixpoint is_substring (p s : string) : bool :=
  is_prefix p s ||
  match s with
  | EmptyString => false
  | String _ s' => is_substring p s'
  end.

(** [key in obj] for a string [key]: a key of a dict, an element of a
    list, a substring of a string. *)
Definition py_contains (key : string) (obj : value) : res bool :=
  match obj with
  | VDict d => Ok match assoc key d with Some _ => true | None => false end
  | VList l => Ok (existsb (is_str key) l)
  | VStr s => Ok (is_substring key s)
  | _ => Raise (Exn TypeError
                    ("argument of type '" ++ type_name obj ++ "' is not iterable"))
  end.

(** [len(obj)] *)
Definition py_len (obj : value) : res Z :=
  match obj with
  | VDict d => Ok (Z.of_nat (List.length d))
  | VList l => Ok (Z.of_nat (List.length l))
  | VStr s => Ok (Z.of_nat (String.length s))
  | _ => Raise (Exn TypeError
                    ("object of type '" ++ type_name obj ++ "' has no len()"))
  end.

Fixpoint chars (s : string) : list value :=
  match s with
  | EmptyString => []
  | String c s' => VStr (String c "") :: chars s'
  end.

(** What [for x in obj] runs through. *)
Definition py_iter (obj : value) : res (list value) :=
  match obj with
  | VList l => Ok l
  | VDict d => Ok (map (fun kv => VStr (fst kv)) d)
  | VStr s => Ok (chars s)
  | _ => Raise (Exn TypeError
                    ("'" ++ type_name obj ++ "' object is not iterable"))
  end.

(** [d[key] = v] on a dict under construction. *)
Fixpoint dict_set (key : string) (v : value) (d : list (string * value))
  : list (string * value) :=
  match d with
  | [] => [(key, v)]
  | (k', v') :: d' =>
      if String.eqb key k' then (k', v) :: d' else (k', v') :: dict_set key v d'
  end.

Definition str_of_Z (z : Z) : string := NilZero.string_of_int (Z.to_int z).

(* ------------------------------------------------------------------ *)
(** ** Numbers

    A JSON number is a Python [int] or a [float]; a [bool] counts as the
    int 0 or 1 in arithmetic and comparisons. *)

Definition prec : Z := 53.
Definition emax : Z := 1024.

Inductive number : Type :=
| NInt (z : Z)
| NFloat (f : spec_float).

Definition as_number (v : value) : option number :=
  match v with
  | VBool b => Some (NInt (if b then 1 else 0))
  | VInt z => Some (NInt z)
  | VFloat f => Some (NFloat f)
  | _ => None
  end.

Definition of_number (n : number) : value :=
  match n with
  | NInt z => VInt z
  | NFloat f => VFloat f
  end.

Definition fzero : spec_float := S754_zero false.

(** [n > 0], [n <= 0], [n < 0] against the int literal 0. *)
Definition num_gt0 (n : number) : bool :=
  match n with
  | NInt z => 0 <? z
  | NFloat f => SFltb fzero f
  end.

Definition num_le0 (n : number) : bool :=
  match n with
  | NInt z => z <=? 0
  | NFloat f => SFleb f fzero
  end.

Definition num_lt0 (n : number) : bool :=
  match n with
  | NInt z => z <? 0
  | NFloat f => SFltb f fzero
  end.

Definition not_supported (op : string) (v : value) : exn :=
  Exn TypeError ("'" ++ op ++ "' not supported between instances of '"
                 ++ type_name v ++ "' and 'int'").

Definition py_gt0 (v : value) : res bool :=
  match as_number v with
  | Some n => Ok (num_gt0 n)
  | None => Raise (not_supported ">" v)
  end.

Definition py_le0 (v : value) : res bool :=
  match as_number v with
  | Some n => Ok (num_le0 n)
  | None => Raise (not_supported "<=" v)
  end.

Definition py_lt0 (v : value) : res bool :=
  match as_number v with
  | Some n => Ok (num_lt0 n)
  | None => Raise (not_supported "<" v)
  end.

(** The nonzero integer [z] as an unrounded binary float. *)
Definition int_as_float (z : Z) : spec_float :=
  match z with
  | Z0 => fzero
  | Zpos p => S754_finite false p 0
  | Zneg p => S754_finite true p 0
  end.

(** [float(z)]: the nearest float, ties to even; an int beyond the
    range of floats is refused. *)
Definition float_of_int (z : Z) : res spec_float :=
  match binary_normalize prec emax z 0 false with
  | S754_infinity _ =>
      Raise (Exn OverflowError "int too large to convert to float")
  | f => Ok f
  end.

Definition to_float (n : number) : res spec_float :=
  match n with
  | NInt z => float_of_int z
  | NFloat f => Ok f
  end.

(** [a / b] on two ints: the float nearest to the quotient. *)
Definition int_truediv (a b : Z) : res spec_float :=
  if b =? 0 then Raise (Exn ZeroDivisionError "division by zero")
  else if a =? 0 then Ok (S754_zero (b <? 0))
  else match SFdiv prec emax (int_as_float a) (int_as_float b) with
       | S754_infinity _ =>
           Raise (Exn OverflowError
                      "integer division result too large for a float")
       | f => Ok f
       end.

Definition float_truediv (x y : spec_float) : res spec_float :=
  if float_is_zero y then Raise (Exn ZeroDivisionError "float division by zero")
  else Ok (SFdiv prec emax x y).

Definition num_sub (a b : number) : res number :=
  match a, b with
  | NInt x, NInt y => Ok (NInt (x - y))
  | _, _ => (x <- to_float a ;; y <- to_float b ;;
             Ok (NFloat (SFsub prec emax x y)))%res
  end.

Definition num_mul (a b : number) : res number :=
  match a, b with
  | NInt x, NInt y => Ok (NInt (x * y))
  | _, _ => (x <- to_float a ;; y <- to_float b ;;
             Ok (NFloat (SFmul prec emax x y)))%res
  end.

Definition num_truediv (a b : number) : res number :=
  match a, b with
  | NInt x, NInt y => (q <- int_truediv x y ;; Ok (NFloat q))%res
  | _, _ => (x <- to_float a ;; y <- to_float b ;;
             q <- float_truediv x y ;; Ok (NFloat q))%res
  end.

Definition unsupported_operands (op : string) (a b : value) : exn :=
  Exn TypeError ("unsupported operand type(s) for " ++ op ++ ": '"
                 ++ type_name a ++ "' and '" ++ type_name b ++ "'").

Definition arith (op : string) (f : number -> number -> res number)
    (a b : value) : res value :=
  match as_number a, as_number b with
  | Some x, Some y => (r <- f x y ;; Ok (of_number r))%res
  | _, _ => Raise (unsupported_operands op a b)
  end.

Definition py_sub : value -> value -> res value := arith "-" num_sub.
Definition py_mul : value -> value -> res value := arith "*" num_mul.
Definition py_truediv : value -> value -> res value := arith "/" num_truediv.

(** The integer nearest to [num / den], ties to even, [den] positive. *)
Definition div_nearest_even (num den : Z) : Z :=
  let q := num / den in
  match (2 * (num mod den)) ?= den with
  | Lt => q
  | Gt => q + 1
  | Eq => if Z.even q then q else q + 1
  end.

(** [round(x, 2)] on a float: the decimal with two places nearest to
    the exact value of [x] (ties to even), then the float nearest to
    that decimal.  A float that is an integer, a zero, an infinity and
    a NaN round to themselves. *)
Definition float_round2 (x : spec_float) : spec_float :=
  match x with
  | S754_finite s m e =>
      if 0 <=? e then x
      else
        match div_nearest_even (Zpos m * 100) (2 ^ (- e)) with
        | Zpos n => SFdiv prec emax (S754_finite s n 0) (S754_finite false 100 0)
        | _ => S754_zero s
        end
  | _ => x
  end.

(** [round(n, 2)]: an int is returned as it is. *)
Definition num_round2 (n : number) : number :=
  match n with
  | NInt z => NInt z
  | NFloat f => NFloat (float_round2 f)
  end.

Definition num_abs (n : number) : number :=
  match n with
  | NInt z => NInt (Z.abs z)
  | NFloat f => NFloat (SFabs f)
  end.

(** The float nearest to [n / 10^k]: how a decimal literal is read. *)
Definition decimal (n : Z) (k : Z) : spec_float :=
  match n with
  | Z0 => fzero
  | _ => SFdiv prec emax (int_as_float n) (int_as_float (10 ^ k))
  end.

Definition py_round2 (v : value) : res value :=
  match as_number v with
  | Some n => Ok (of_number (num_round2 n))
  | None => Raise (Exn TypeError
                       ("type " ++ type_name v ++ " doesn't define __round__ method"))
  end.

Definition py_abs (v : value) : res value :=
  match as_number v with
  | Some n => Ok (of_number (num_abs n))
  | None => Raise (Exn TypeError
                       ("bad operand type for abs(): '" ++ type_name v ++ "'"))
  end.

(** The float literal [0.25]. *)
Definition quarter : spec_float := S754_finite false 4503599627370496 (-54).

(* ------------------------------------------------------------------ *)
(** ** The outside world

    [requests.post] answers with a response or raises; what it answers
    may depend on everything sent before, so the transport is a
    transition on a state of the world.  The body handed to it is the
    JSON document, before [json.dumps] writes it out.  [py_repr] is
    Python's text of a value that is not a string, as [str] and
    f-strings print it. *)

Record response : Type := {
  status_code : Z;
  text : string;
  json : res value          (* [response.json()] *)
}.

Inductive post_result : Type :=
| Responded (r : response)
| Failed (e : exn).

Class Env : Type := {
  world : Type;
  requests_post : string -> value -> value -> world -> post_result * world;
  py_repr : value -> string
}.

Definition try_except {S A} (m : SE S A) (handle : exn -> SE S A) : SE S A :=
  fun s =>
    match m s with
    | (Ok a, s') => (Ok a, s')
    | (Raise e, s') => handle e s'
    end.

(* ------------------------------------------------------------------ *)
(** ** map_equipment_code_to_rateview *)

Definition van_codes : list string :=
  ["V"; "VA"; "VB"; "VC"; "V2"; "VZ"; "VH"; "VI"; "VN"; "VG"; "VL"; "VV";
   "VM"; "VT"; "VF"; "VR"; "VP"; "VW"].
Definition reefer_codes : list string :=
  ["R"; "RA"; "R2"; "RZ"; "RN"; "RL"; "RM"; "RG"; "RV"; "RP"].
Definition flatbed_codes : list string :=
  ["F"; "FA"; "FT"; "FM"; "FD"; "FR"; "FO"; "FN"; "FS"].

(** [code in codes] for a list of strings: some element equals [code]. *)
Definition in_codes (code : value) (codes : list string) : bool :=
  existsb (fun c => is_str c code) codes.

Definition map_equipment_code_to_rateview (equipment_code : value) : string :=
  if in_codes equipment_code van_codes then "VAN"
  else if in_codes equipment_code reefer_codes then "REEFER"
  else if in_codes equipment_code flatbed_codes then "FLATBED"
  else "FLATBED".

(* ------------------------------------------------------------------ *)
(** ** The rate extractors *)

(** [load.get("tripLength", {}).get("miles", 0)] *)
Definition trip_miles (load : value) : res value :=
  (t <- py_get load "tripLength" (VDict []) ;;
   py_get t "miles" (VInt 0))%res.

(** [load.get("privateNetworkRateInfo", {}).get("bookable", {})
         .get("rate", {}).get("rateUsd", 0)] *)
Definition private_network_rate (load : value) : res value :=
  (i <- py_get load "privateNetworkRateInfo" (VDict []) ;;
   b <- py_get i "bookable" (VDict []) ;;
   r <- py_get b "rate" (VDict []) ;;
   py_get r "rateUsd" (VInt 0))%res.

(** [load.get("loadBoardRateInfo", {}).get("nonBookable", {})
         .get("rateUsd", 0)] *)
Definition load_board_rate (load : value) : res value :=
  (i <- py_get load "loadBoardRateInfo" (VDict []) ;;
   n <- py_get i "nonBookable" (VDict []) ;;
   py_get n "rateUsd" (VInt 0))%res.

Definition get_broker_rate_per_mile (load : value) : res value :=
  (estimated <- py_get load "estimatedRatePerMile" (VInt 0) ;;
   has_estimate <- py_gt0 estimated ;;
   if has_estimate then py_getitem load "estimatedRatePerMile"
   else
     trip_length_miles <- trip_miles load ;;
     no_miles <- py_le0 trip_length_miles ;;
     if no_miles then Ok VNone
     else
       private_rate <- private_network_rate load ;;
       has_private <- py_gt0 private_rate ;;
       if has_private then py_truediv private_rate trip_length_miles
       else
         board_rate <- load_board_rate load ;;
         has_board <- py_gt0 board_rate ;;
         if has_board then py_truediv board_rate trip_length_miles
         else Ok VNone)%res.

Definition get_total_load_amount (load : value) : res value :=
  (private_rate <- private_network_rate load ;;
   has_private <- py_gt0 private_rate ;;
   if has_private then Ok private_rate
   else
     board_rate <- load_board_rate load ;;
     has_board <- py_gt0 board_rate ;;
     if has_board then Ok board_rate
     else Ok VNone)%res.

(* ------------------------------------------------------------------ *)
(** ** calculate_driver_pay *)

(** [x and x > 0] as a condition *)
Definition truthy_and_gt0 (x : value) : res bool :=
  if truthy x then py_gt0 x else Ok false.

Definition driver_pay_record (amount : value) (method : string) : value :=
  VDict [("amount", amount); ("calculation_method", VStr method)].

Definition calculate_driver_pay (load : value) : res value :=
  (trip_length_miles <- trip_miles load ;;
   total_load_amount <- get_total_load_amount load ;;
   has_total <- truthy_and_gt0 total_load_amount ;;
   if has_total then
     driver_pay <- py_mul total_load_amount (VFloat quarter) ;;
     amount <- py_round2 driver_pay ;;
     Ok (driver_pay_record amount "percentage_of_total")
   else
     rate_per_mile <- get_broker_rate_per_mile load ;;
     has_rate <- truthy_and_gt0 rate_per_mile ;;
     usable <- (if has_rate then py_gt0 trip_length_miles else Ok false) ;;
     if usable then
       total_calculated <- py_mul rate_per_mile trip_length_miles ;;
       driver_pay <- py_mul total_calculated (VFloat quarter) ;;
       amount <- py_round2 driver_pay ;;
       Ok (driver_pay_record amount "calculated_from_rate_per_mile")
     else Ok (driver_pay_record (VStr "Not Available") "insufficient_data"))%res.

Section Program.
Context {env : Env}.

(** [str(v)], the text an f-string puts for [v]. *)
Definition py_str (v : value) : string :=
  match v with
  | VStr s => s
  | _ => py_repr v
  end.

(* ------------------------------------------------------------------ *)
(** ** get_rate_comparison *)

(** [rate is None or rate <= 0] *)
Definition none_or_le0 (rate : value) : res bool :=
  match rate with
  | VNone => Ok true
  | _ => py_le0 rate
  end.

Definition not_available_or (rate : value) : res value :=
  (missing <- none_or_le0 rate ;;
   Ok (if missing then VStr "Not Available" else rate))%res.

(** [((load_rate - market_rate) / market_rate) * 100] *)
Definition percentage_difference (load_rate market_rate : value) : res value :=
  (d <- py_sub load_rate market_rate ;;
   q <- py_truediv d market_rate ;;
   py_mul q (VInt 100))%res.

(** [f"{abs(round(d, 2))}{suffix}"] *)
Definition rounded_with (d : value) (suffix : string) : res value :=
  (r <- py_round2 d ;;
   a <- py_abs r ;;
   Ok (VStr (py_str a ++ suffix)))%res.

Definition comparison_text (difference_percentage : value) : res value :=
  (above <- py_gt0 difference_percentage ;;
   if above then rounded_with difference_percentage "% above market rate"
   else
     below <- py_lt0 difference_percentage ;;
     if below then rounded_with difference_percentage "% below market rate"
     else Ok (VStr "At market rate"))%res.

Definition comparison_record (broker market difference comparison : value)
  : value :=
  VDict [("broker_rate_per_mile", broker);
         ("market_rate_per_mile", market);
         ("difference_percentage", difference);
         ("comparison", comparison)].

Definition get_rate_comparison (load_rate market_rate : value) : res value :=
  (no_load_rate <- none_or_le0 load_rate ;;
   not_possible <- (if no_load_rate then Ok true else none_or_le0 market_rate) ;;
   if not_possible then
     broker <- not_available_or load_rate ;;
     market <- not_available_or market_rate ;;
     Ok (comparison_record broker market (VStr "N/A")
                           (VStr "Rate comparison not possible"))
   else
     difference_percentage <- percentage_difference load_rate market_rate ;;
     comparison <- comparison_text difference_percentage ;;
     rounded <- py_round2 difference_percentage ;;
     Ok (comparison_record load_rate market_rate rounded comparison))%res.

(* ------------------------------------------------------------------ *)
(** ** call_rateview_api *)

Definition M (A : Type) : Type := SE world A.

Definition url : string :=
  "https://analytics.api.staging.dat.com/linehaulrates" ++ "/v1/lookups".

Definition lookup_payload (origin destination : value) (equipment : string)
  : res value :=
  (origin_city <- py_get origin "city" (VStr "") ;;
   origin_state <- py_get origin "stateProv" (VStr "") ;;
   destination_city <- py_get destination "city" (VStr "") ;;
   destination_state <- py_get destination "stateProv" (VStr "") ;;
   Ok (VList [VDict
        [("origin", VDict [("city", origin_city);
                           ("stateOrProvince", origin_state)]);
         ("destination", VDict [("city", destination_city);
                                ("stateOrProvince", destination_state)]);
         ("rateType", VStr "SPOT");
         ("equipment", VStr equipment);
         ("includeMyRate", VBool true);
         ("targetEscalation", VDict [("escalationType", VStr "BEST_FIT")])]]))%res.

Definition request_headers (access_token : value) : value :=
  VDict [("Content-Type", VStr "application/json");
         ("Authorization", VStr ("Bearer " ++ py_str access_token))].

Definition error_record (message : string) : value :=
  VDict [("error", VStr message)].

(** The body of the [try]: the request and the reading of its answer. *)
Definition post_lookup (headers payload : value) : M value :=
  fun w =>
    match requests_post url headers payload w with
    | (Failed e, w') => (Raise e, w')
    | (Responded r, w') =>
        if (status_code r =? 200) || (status_code r =? 201) then (json r, w')
        else (Ok (VDict [("error", VStr ("API Error: " ++ str_of_Z (status_code r)));
                         ("detail", VStr (text r))]), w')
    end.

Definition call_rateview_api (origin destination : value) (equipment : string)
    (access_token : value) : M value :=
  (payload <- lift (lookup_payload origin destination equipment) ;;
   try_except (post_lookup (request_headers access_token) payload)
              (fun e => ret (error_record ("Exception: " ++ exn_msg e))))%se.

(* ------------------------------------------------------------------ *)
(** ** process_loads_and_compare_rates *)

(** The three variables the [try] block of the loop assigns. *)
Record locals : Type := {
  market_rate_per_mile : value;
  market_data : value;
  rate_data : value
}.

Definition set_market_rate_per_mile (v : value) : SE locals unit :=
  modify (fun s => {| market_rate_per_mile := v;
                      market_data := market_data s;
                      rate_data := rate_data s |}).
Definition set_market_data (v : value) : SE locals unit :=
  modify (fun s => {| market_rate_per_mile := market_rate_per_mile s;
                      market_data := v;
                      rate_data := rate_data s |}).
Definition set_rate_data (v : value) : SE locals unit :=
  modify (fun s => {| market_rate_per_mile := market_rate_per_mile s;
                      market_data := market_data s;
                      rate_data := v |}).

(** [rate_responses and len(rate_responses) > 0] *)
Definition nonempty (rate_responses : value) : res bool :=
  if truthy rate_responses
  then (n <- py_len rate_responses ;; Ok (0 <? n))%res
  else Ok false.

(** ["perMile" in rate_data and "rateUsd" in rate_data["perMile"]] *)
Definition has_per_mile_rate (rate : value) : res bool :=
  (has_per_mile <- py_contains "perMile" rate ;;
   if has_per_mile
   then (per_mile <- py_getitem rate "perMile" ;; py_contains "rateUsd" per_mile)
   else Ok false)%res.

Definition read_rate (rate : value) : SE locals unit :=
  (has_rate <- lift (has_per_mile_rate rate) ;;
   if has_rate then
     per_mile <- lift (py_getitem rate "perMile") ;;
     rate_usd <- lift (py_getitem per_mile "rateUsd") ;;
     set_market_rate_per_mile rate_usd
   else ret tt)%se.

Definition read_rateview_response (rateview_response : value)
  : SE locals unit :=
  (has_error <- lift (py_contains "error" rateview_response) ;;
   if has_error then
     message <- lift (py_get rateview_response "error" VNone) ;;
     set_market_data (VDict [("error", message)])
   else
     rate_responses <- lift (py_get rateview_response "rateResponses" (VList [])) ;;
     some <- lift (nonempty rate_responses) ;;
     if some then
       first <- lift (py_getitem0 rate_responses) ;;
       response_obj <- lift (py_get first "response" (VDict [])) ;;
       has_rate <- lift (py_contains "rate" response_obj) ;;
       (if has_rate then
          rate <- lift (py_getitem response_obj "rate") ;;
          set_rate_data rate ;;;
          read_rate rate
        else ret tt) ;;;
       set_market_data response_obj
     else ret tt)%se.

Definition no_locals : locals :=
  {| market_rate_per_mile := VNone; market_data := VNone; rate_data := VNone |}.

(** The [try] block with its handler, from the three variables at
    [None] to what they hold afterwards. *)
Definition market_of_response (rateview_response : value) : locals :=
  snd (try_except (read_rateview_response rateview_response)
         (fun e => set_market_data
                     (error_record ("Error processing rate data: " ++ exn_msg e)))
         no_locals).

(** [if market_data and key in market_data] *)
Definition truthy_and_contains (key : string) (v : value) : res bool :=
  if truthy v then py_contains key v else Ok false.

Definition market_fields (rate : value) : res (list (string * value)) :=
  (mileage <- py_get rate "mileage" VNone ;;
   reports <- py_get rate "reports" VNone ;;
   companies <- py_get rate "companies" VNone ;;
   standard_deviation <- py_get rate "standardDeviation" VNone ;;
   per_mile <- py_get rate "perMile" (VDict []) ;;
   per_trip <- py_get rate "perTrip" (VDict []) ;;
   per_mile_fuel <- py_get rate "averageFuelSurchargePerMileUsd" VNone ;;
   per_trip_fuel <- py_get rate "averageFuelSurchargePerTripUsd" VNone ;;
   Ok [("mileage", mileage);
       ("reports", reports);
       ("companies", companies);
       ("standardDeviation", standard_deviation);
       ("perMile", per_mile);
       ("perTrip", per_trip);
       ("averageFuelSurchargePerMileUsd", per_mile_fuel);
       ("averageFuelSurchargePerTripUsd", per_trip_fuel)])%res.

(** The two branches that add ["marketData"] to the processed match. *)
Definition add_market_data (found : locals)
    (processed_match : list (string * value)) : res (list (string * value)) :=
  (if truthy (rate_data found) then
     fields <- market_fields (rate_data found) ;;
     has_escalation <- truthy_and_contains "escalation" (market_data found) ;;
     if has_escalation then
       escalation <- py_getitem (market_data found) "escalation" ;;
       Ok (dict_set "marketData"
                    (VDict (dict_set "escalation" escalation fields))
                    processed_match)
     else Ok (dict_set "marketData" (VDict fields) processed_match)
   else
     has_error <- truthy_and_contains "error" (market_data found) ;;
     if has_error then
       message <- py_getitem (market_data found) "error" ;;
       Ok (dict_set "marketData" (VDict [("error", message)]) processed_match)
     else Ok processed_match)%res.

(** What the loop reads of a match before it decides to skip it:
    [match_id], [matching_asset_info], [origin], [destination_place]. *)
Definition match_places (m : value) : res (value * value * value * value) :=
  (match_id <- py_get m "matchId" (VStr "") ;;
   matching_asset_info <- py_get m "matchingAssetInfo" (VDict []) ;;
   origin <- py_get matching_asset_info "origin" (VDict []) ;;
   destination <- py_get matching_asset_info "destination" (VDict []) ;;
   destination_place <- py_get destination "place" (VDict []) ;;
   Ok (match_id, matching_asset_info, origin, destination_place))%res.

(** [not origin or not destination_place] *)
Definition missing_place (origin destination_place : value) : bool :=
  negb (truthy origin) || negb (truthy destination_place).

(** The rest of the loop body, for a match that is not skipped. *)
Definition build_processed_match (m access_token : value)
    (match_id matching_asset_info origin destination_place : value) : M value :=
  (equipment_code <- lift (py_get matching_asset_info "equipmentType" (VStr "")) ;;
   let rateview_equipment := map_equipment_code_to_rateview equipment_code in
   broker_rate_per_mile <- lift (get_broker_rate_per_mile m) ;;
   driver_pay <- lift (calculate_driver_pay m) ;;
   rateview_response <-
     call_rateview_api origin destination_place rateview_equipment access_token ;;
   let found := market_of_response rateview_response in
   lift (comparison <- get_rate_comparison broker_rate_per_mile
                                           (market_rate_per_mile found) ;;
         origin_city <- py_get origin "city" (VStr "") ;;
         origin_state <- py_get origin "stateProv" (VStr "") ;;
         destination_city <- py_get destination_place "city" (VStr "") ;;
         destination_state <- py_get destination_place "stateProv" (VStr "") ;;
         miles <- trip_miles m ;;
         processed_match <-
           add_market_data found
             [("matchId", match_id);
              ("origin", VDict [("city", origin_city); ("state", origin_state)]);
              ("destination", VDict [("city", destination_city);
                                     ("state", destination_state)]);
              ("equipmentType", VDict [("code", equipment_code);
                                       ("rateviewType", VStr rateview_equipment)]);
              ("tripMiles", miles);
              ("rateComparison", comparison);
              ("driver_pay", driver_pay)] ;;
         Ok (VDict processed_match))%res)%se.

(** One turn of the loop: [None] when the match is skipped by
    [continue], the processed match otherwise. *)
Definition process_match (m access_token : value) : M (option value) :=
  ('(match_id, matching_asset_info, origin, destination_place)
     <- lift (match_places m) ;;
   if missing_place origin destination_place then ret None
   else
     processed_match <- build_processed_match m access_token match_id
                          matching_asset_info origin destination_place ;;
     ret (Some processed_match))%se.

(** [for match in matches], with [result["processedMatches"]] as the
    accumulator the loop appends to. *)
Fixpoint for_matches (matches : list value) (access_token : value)
    (processed : list value) : M (list value) :=
  match matches with
  | [] => ret processed
  | m :: rest =>
      (outcome <- process_match m access_token ;;
       match outcome with
       | None => for_matches rest access_token processed
       | Some processed_match =>
           for_matches rest access_token (processed ++ [processed_match])
       end)%se
  end.

Definition process_loads_and_compare_rates (loads_data access_token : value)
  : M value :=
  (match_counts <- lift (py_get loads_data "matchCounts" (VDict [])) ;;
   matches <- lift (py_get loads_data "matches" (VList [])) ;;
   items <- lift (py_iter matches) ;;
   processed <- for_matches items access_token [] ;;
   ret (VDict [("matchCounts", match_counts);
               ("processedMatches", VList processed)]))%se.

Definition process_freight_data (loads_data access_token : value) : M value :=
  process_loads_and_compare_rates loads_data access_token.

(* ------------------------------------------------------------------ *)
(** ** handler *)

Definition handler (job : value) : M value :=
  (job_input <- lift (py_getitem job "input") ;;
   if negb (is_dict job_input)
   then ret (error_record "Input must be a dictionary")
   else
     freight_data <- lift (py_get job_input "freight_data" VNone) ;;
     access_token <- lift (py_get job_input "access_token" VNone) ;;
     if negb (truthy freight_data)
     then ret (error_record "Missing required parameter: freight_data")
     else if negb (truthy access_token)
     then ret (error_record "Missing required parameter: access_token")
     else
       try_except (process_freight_data freight_data access_token)
                  (fun e => ret (error_record ("Processing error: " ++ exn_msg e))))%se.

End Program.

(* ------------------------------------------------------------------ *)
(** ** Definitions the properties are stated with *)

(** The equipment mapper as the specification words it: a lookup in
    two sets of codes, with FLATBED as the default case. *)
Definition mapEquipment (code : string) : string :=
  if in_dec string_dec code van_codes then "VAN"
  else if in_dec string_dec code reefer_codes then "REEFER"
  else "FLATBED".

(** The float [100.0] the int literal [100] is multiplied as. *)
Definition hundred : spec_float := S754_finite false 7036874417766400 (-46).

(** [((l - m) / m) * 100] on two floats *)
Definition float_difference (l m : spec_float) : spec_float :=
  SFmul prec emax (SFdiv prec emax (SFsub prec emax l m) m) hundred.

(** The wording of the comparison on a float difference [d]. *)
Definition float_label {env : Env} (d : spec_float) : value :=
  if SFltb fzero d
  then VStr (py_repr (VFloat (SFabs (float_round2 d))) ++ "% above market rate")
  else if SFltb d fzero
  then VStr (py_repr (VFloat (SFabs (float_round2 d))) ++ "% below market rate")
  else VStr "At market rate".

(** A pair of rates whose difference is not zero and rounds to zero. *)
Definition near_load_rate : value := VInt 1048577.
Definition near_market_rate : value := VInt 1048576.

(** A rate that is absent or a float, as a value. *)
Definition rate_of (r : option spec_float) : value :=
  match r with
  | Some f => VFloat f
  | None => VNone
  end.


(** A transport that counts what is sent through it: the world of
    [env] with the number of requests posted so far. *)
Definition counted (env : Env) : Env := {|
  world := (@world env * nat)%type;
  requests_post := fun target headers payload state =>
    let (answer, w') := @requests_post env target headers payload (fst state) in
    (answer, (w', S (snd state)));
  py_repr := @py_repr env
|}.

(** The entries a run of outcomes leaves, in their order. *)
Fixpoint kept (outcomes : list (option value)) : list value :=
  match outcomes with
  | [] => []
  | Some v :: rest => v :: kept rest
  | None :: rest => kept rest
  end.

(** The outcome of every match, each processed by itself, one after
    the other from the first to the last. *)
Fixpoint outcomes_of {env : Env} (matches : list value) (access_token : value)
  : M (list (option value)) :=
  match matches with
  | [] => ret []
  | m :: rest =>
      (outcome <- process_match m access_token ;;
       others <- outcomes_of rest access_token ;;
       ret (outcome :: others))%se
  end.

(** [ids] is [all] with some of its elements left out, the others in
    their order. *)
Inductive subsequence {A : Type} : list A -> list A -> Prop :=
| subsequence_nil : subsequence [] []
| subsequence_skip x ids all : subsequence ids all -> subsequence ids (x :: all)
| subsequence_keep x ids all :
    subsequence ids all -> subsequence (x :: ids) (x :: all).

(** A transport for examples: the world is the script of the answers
    still to come, one per call; past its end nothing answers.  Its
    [py_repr] writes an int in decimal and any other value as the name
    of its type between angle brackets. *)
Definition scripted : Env := {|
  world := list post_result;
  requests_post := fun _ _ _ script =>
    match script with
    | answer :: later => (answer, later)
    | [] => (Failed (Exn (OtherError "ConnectionError") "no answer"), [])
    end;
  py_repr := fun v =>
    match v with
    | VInt z => str_of_Z z
    | _ => "<" ++ type_name v ++ ">"
    end
|}.

(** ** Sample data *)

Definition place (city state : string) : value :=
  VDict [("city", VStr city); ("stateProv", VStr state)].

Definition dallas : value := VDict [("place", place "Dallas" "TX")].

(** A load with a private network rate of 400 and no trip length. *)
Definition total_amount_load : value :=
  VDict [("privateNetworkRateInfo",
          VDict [("bookable", VDict [("rate", VDict [("rateUsd", VInt 400)])])])].

(** A load with no total amount, 2.00 per mile and 500 miles. *)
Definition rate_per_mile_load : value :=
  VDict [("estimatedRatePerMile", VFloat (decimal 200 2));
         ("tripLength", VDict [("miles", VInt 500)])].

(** A load board rate of 900 over 450 miles. *)
Definition board_rate_load : value :=
  VDict [("tripLength", VDict [("miles", VInt 450)]);
         ("loadBoardRateInfo",
          VDict [("nonBookable", VDict [("rateUsd", VInt 900)])])].

(** The same rate with the trip miles at zero. *)
Definition no_miles_load : value :=
  VDict [("tripLength", VDict [("miles", VInt 0)]);
         ("loadBoardRateInfo",
          VDict [("nonBookable", VDict [("rateUsd", VInt 900)])])].

(** Chicago to Dallas in a van, 2.50 per mile over 500 miles. *)
Definition match_a : value :=
  VDict [("matchId", VStr "a");
         ("matchingAssetInfo",
          VDict [("equipmentType", VStr "V");
                 ("origin", place "Chicago" "IL");
                 ("destination", dallas)]);
         ("estimatedRatePerMile", VFloat (decimal 25 1));
         ("tripLength", VDict [("miles", VInt 500)])].

(** A match without an origin. *)
Definition match_b : value :=
  VDict [("matchId", VStr "b");
         ("matchingAssetInfo",
          VDict [("equipmentType", VStr "V"); ("destination", dallas)])].

(** Boston to Dallas, no rate and no trip length. *)
Definition match_c : value :=
  VDict [("matchId", VStr "c");
         ("matchingAssetInfo",
          VDict [("equipmentType", VStr "R");
                 ("origin", place "Boston" "MA");
                 ("destination", dallas)])].

(** A match whose origin is an empty mapping. *)
Definition match_d : value :=
  VDict [("matchId", VStr "d");
         ("matchingAssetInfo",
          VDict [("equipmentType", VStr "V");
                 ("origin", VDict []);
                 ("destination", dallas)])].

Definition sample_counts : value := VDict [("normal", VInt 3)].

Definition freight_of (matches : list value) : value :=
  VDict [("matchCounts", sample_counts); ("matches", VList matches)].

Definition sample_token : value := VStr "token".

Definition job_of (matches : list value) : value :=
  VDict [("id", VStr "job-1");
         ("input", VDict [("freight_data", freight_of matches);
                          ("access_token", sample_token)])].

(** An answer with a market rate of 2.00 per mile. *)
Definition rate_answer : post_result :=
  Responded {|
    status_code := 200;
    text := "";
    json := Ok (VDict
      [("rateResponses",
        VList [VDict [("response",
          VDict [("rate", VDict [("mileage", VInt 925);
                                 ("perMile",
                                  VDict [("rateUsd", VFloat (decimal 2 0))])])])]])])
  |}.

Definition server_error : post_result :=
  Responded {|
    status_code := 500;
    text := "Internal Server Error";
    json := Raise (Exn (OtherError "JSONDecodeError")
                       "Expecting value: line 1 column 1 (char 0)")
  |}.

(* ------------------------------------------------------------------ *)
(** * Properties *)

(** ** Numbers against zero *)

Lemma num_gt0_not_le0 (n : number) : num_gt0 n = true -> num_le0 n = false.
Proof.
  destruct n as [z | f]; simpl.
  - intros H. apply Z.ltb_lt in H. apply Z.leb_gt. exact H.
  - destruct f as [s | s | | s m e]; try discriminate;
      destruct s; simpl; intros H; try discriminate; reflexivity.
Qed.

Lemma num_lt0_not_gt0 (n : number) : num_lt0 n = true -> num_gt0 n = false.
Proof.
  destruct n as [z | f]; simpl.
  - intros H. apply Z.ltb_lt in H. apply Z.ltb_ge. lia.
  - destruct f as [s | s | | s m e]; try discriminate;
      destruct s; simpl; intros H; try discriminate; reflexivity.
Qed.

Lemma py_gt0_not_le0 (v : value) : py_gt0 v = Ok true -> py_le0 v = Ok false.
Proof.
  unfold py_gt0, py_le0. destruct (as_number v) as [n |]; [| discriminate].
  intros H. injection H as H. now rewrite (num_gt0_not_le0 n H).
Qed.

Lemma py_lt0_not_gt0 (v : value) : py_lt0 v = Ok true -> py_gt0 v = Ok false.
Proof.
  unfold py_gt0, py_lt0. destruct (as_number v) as [n |]; [| discriminate].
  intros H. injection H as H. now rewrite (num_lt0_not_gt0 n H).
Qed.

(** A value that is [> 0] is not [None] and is true as a condition. *)
Lemma py_gt0_truthy (v : value) :
  py_gt0 v = Ok true -> truthy v = true /\ v <> VNone.
Proof.
  destruct v as [| b | z | f | s | l | d]; try discriminate; simpl.
  - destruct b; [split; [reflexivity | discriminate] | discriminate].
  - unfold py_gt0; simpl. intros H. injection H as H. apply Z.ltb_lt in H.
    split; [| discriminate]. apply negb_true_iff, Z.eqb_neq. lia.
  - unfold py_gt0; simpl. intros H. injection H as H.
    split; [| discriminate].
    destruct f as [s | s | | s m e]; simpl in *;
      try reflexivity; try discriminate.
Qed.

Lemma py_gt0_none_or_le0 (v : value) :
  py_gt0 v = Ok true -> none_or_le0 v = Ok false.
Proof.
  intros H. destruct (py_gt0_truthy v H) as [_ Hn].
  unfold none_or_le0. destruct v; try contradiction;
    try apply py_gt0_not_le0; exact H.
Qed.

(* ------------------------------------------------------------------ *)
(** ** The equipment mapper *)

Lemma in_codes_In (code : string) (codes : list string) :
  in_codes (VStr code) codes = true <-> In code codes.
Proof.
  unfold in_codes. rewrite existsb_exists. split.
  - intros [c [Hc He]]. simpl in He. apply String.eqb_eq in He. now subst.
  - intros H. exists code. split; [exact H | simpl; apply String.eqb_refl].
Qed.

Lemma in_codes_not_In (code : string) (codes : list string) :
  in_codes (VStr code) codes = false <-> ~ In code codes.
Proof.
  rewrite <- in_codes_In. destruct (in_codes (VStr code) codes); split;
    intros H; try reflexivity; try discriminate; try now apply H.
  contradiction H. reflexivity.
Qed.

Ltac each_code H :=
  simpl in H;
  repeat (destruct H as [H | H]; [subst; simpl; intuition discriminate |]);
  contradiction.

Lemma van_not_reefer (code : string) :
  In code reefer_codes -> ~ In code van_codes.
Proof. intros H. each_code H. Qed.

Lemma flatbed_not_van_nor_reefer (code : string) :
  In code flatbed_codes -> ~ In code van_codes /\ ~ In code reefer_codes.
Proof. intros H. each_code H. Qed.

(** C6: on every string the mapper answers, with VAN on the van codes,
    REEFER on the reefer codes and FLATBED on every other string, the
    flatbed codes, the empty string and unknown codes alike; it is the
    lookup in two sets with FLATBED as the default. *)
Theorem map_equipment_two_sets :
  forall code : string,
    (In code van_codes ->
     map_equipment_code_to_rateview (VStr code) = "VAN") /\
    (In code reefer_codes ->
     map_equipment_code_to_rateview (VStr code) = "REEFER") /\
    (~ In code van_codes -> ~ In code reefer_codes ->
     map_equipment_code_to_rateview (VStr code) = "FLATBED") /\
    (In code flatbed_codes ->
     map_equipment_code_to_rateview (VStr code) = "FLATBED") /\
    map_equipment_code_to_rateview (VStr "") = "FLATBED" /\
    map_equipment_code_to_rateview (VStr code) = mapEquipment code.
Proof.
  intros code.
  assert (Hvan : In code van_codes ->
                 map_equipment_code_to_rateview (VStr code) = "VAN").
  { intros H. unfold map_equipment_code_to_rateview.
    apply in_codes_In in H. now rewrite H. }
  assert (Hreefer : In code reefer_codes ->
                    map_equipment_code_to_rateview (VStr code) = "REEFER").
  { intros H. unfold map_equipment_code_to_rateview.
    pose proof (van_not_reefer code H) as Hn.
    apply in_codes_not_In in Hn. apply in_codes_In in H. now rewrite Hn, H. }
  assert (Hother : ~ In code van_codes -> ~ In code reefer_codes ->
                   map_equipment_code_to_rateview (VStr code) = "FLATBED").
  { intros Hv Hr. unfold map_equipment_code_to_rateview.
    apply in_codes_not_In in Hv, Hr. rewrite Hv, Hr.
    now destruct (in_codes (VStr code) flatbed_codes). }
  repeat split; try assumption.
  - intros H. destruct (flatbed_not_van_nor_reefer code H). now apply Hother.
  - unfold mapEquipment.
    destruct (in_dec string_dec code van_codes) as [Hv | Hv];
      [now apply Hvan |].
    destruct (in_dec string_dec code reefer_codes) as [Hr | Hr];
      [now apply Hreefer | now apply Hother].
Qed.

(* ------------------------------------------------------------------ *)
(** ** The rate extractors and the driver pay *)

Lemma get_positive_is_getitem (load : value) (key : string) (v : value) :
  py_get load key (VInt 0) = Ok v -> py_gt0 v = Ok true ->
  py_getitem load key = Ok v.
Proof.
  destruct load as [| | | | | | d]; try discriminate. simpl.
  destruct (assoc key d) as [x |]; intros H; injection H as <-.
  - reflexivity.
  - discriminate.
Qed.

(** C4: the broker rate per mile is [estimatedRatePerMile] when that
    is above zero; otherwise nothing as soon as the trip miles are not
    above zero, whatever else the load holds; otherwise the private
    network rate over the miles when that rate is above zero, else the
    load board rate over the miles when that one is, else nothing. *)
Theorem broker_rate_order :
  forall load estimated : value,
    py_get load "estimatedRatePerMile" (VInt 0) = Ok estimated ->
    (py_gt0 estimated = Ok true ->
     get_broker_rate_per_mile load = Ok estimated) /\
    (py_gt0 estimated = Ok false ->
     forall miles, trip_miles load = Ok miles ->
       (py_le0 miles = Ok true -> get_broker_rate_per_mile load = Ok VNone) /\
       (py_le0 miles = Ok false ->
        forall private_rate, private_network_rate load = Ok private_rate ->
          (py_gt0 private_rate = Ok true ->
           get_broker_rate_per_mile load = py_truediv private_rate miles) /\
          (py_gt0 private_rate = Ok false ->
           forall board_rate, load_board_rate load = Ok board_rate ->
             (py_gt0 board_rate = Ok true ->
              get_broker_rate_per_mile load = py_truediv board_rate miles) /\
             (py_gt0 board_rate = Ok false ->
              get_broker_rate_per_mile load = Ok VNone)))).
Proof.
  intros load estimated Hest. unfold get_broker_rate_per_mile.
  rewrite Hest; simpl. split.
  - intros Hpos. rewrite Hpos; simpl.
    now apply get_positive_is_getitem.
  - intros Hno miles Hmiles. rewrite Hno, Hmiles; simpl. split.
    + intros Hle. now rewrite Hle.
    + intros Hle private_rate Hprivate. rewrite Hle, Hprivate; simpl. split.
      * intros Hp. now rewrite Hp.
      * intros Hp board_rate Hboard. rewrite Hp, Hboard; simpl.
        split; intros Hb; now rewrite Hb.
Qed.

(** The total amount, when there is one, is a rate above zero. *)
Lemma total_amount_positive (load total : value) :
  get_total_load_amount load = Ok total -> total <> VNone ->
  py_gt0 total = Ok true.
Proof.
  unfold get_total_load_amount.
  destruct (private_network_rate load) as [p | e]; simpl; [| discriminate].
  destruct (py_gt0 p) as [[|] | e] eqn:Hp; simpl; try discriminate.
  - intros H. injection H as <-. intros _. exact Hp.
  - destruct (load_board_rate load) as [b | e]; simpl; [| discriminate].
    destruct (py_gt0 b) as [[|] | e] eqn:Hb; simpl; try discriminate.
    + intros H. injection H as <-. intros _. exact Hb.
    + intros H. injection H as <-. intros Hn. now contradiction Hn.
Qed.

(** Without a total amount the only broker rate left is the estimated
    one, which is above zero. *)
Lemma broker_rate_without_total (load rate : value) :
  get_total_load_amount load = Ok VNone ->
  get_broker_rate_per_mile load = Ok rate -> rate <> VNone ->
  py_gt0 rate = Ok true.
Proof.
  unfold get_total_load_amount, get_broker_rate_per_mile.
  destruct (py_get load "estimatedRatePerMile" (VInt 0)) as [est | e] eqn:Hest;
    simpl; [| discriminate].
  destruct (py_gt0 est) as [[|] | e] eqn:Hpos; simpl; try discriminate.
  - intros _. rewrite (get_positive_is_getitem _ _ _ Hest Hpos).
    intros H. injection H as <-. intros _. exact Hpos.
  - destruct (private_network_rate load) as [p | e]; simpl; [| discriminate].
    destruct (py_gt0 p) as [[|] | e] eqn:Hp; simpl; try discriminate.
    + intros H. injection H as ->. discriminate.
    + destruct (load_board_rate load) as [b | e]; simpl; [| discriminate].
      destruct (py_gt0 b) as [[|] | e] eqn:Hb; simpl; try discriminate.
      * intros H. injection H as ->. discriminate.
      * intros _.
        destruct (trip_miles load) as [miles | e]; simpl; [| discriminate].
        destruct (py_le0 miles) as [[|] | e]; simpl; try discriminate;
          intros H; injection H as <-; intros Hn; now contradiction Hn.
Qed.

(** C3: the driver pay follows the ordered policy.  With a total
    amount it is a quarter of it, rounded to two places, by
    percentage_of_total; without one but with a broker rate and trip
    miles above zero it is a quarter of rate times miles, rounded, by
    calculated_from_rate_per_mile; otherwise the amount is the
    sentinel, by insufficient_data. *)
Theorem driver_pay_policy :
  forall load miles : value,
    trip_miles load = Ok miles ->
    (forall total,
       get_total_load_amount load = Ok total -> total <> VNone ->
       calculate_driver_pay load =
       (pay <- py_mul total (VFloat quarter) ;;
        amount <- py_round2 pay ;;
        Ok (driver_pay_record amount "percentage_of_total"))%res) /\
    (get_total_load_amount load = Ok VNone ->
     forall rate,
       get_broker_rate_per_mile load = Ok rate ->
       (rate <> VNone -> py_gt0 miles = Ok true ->
        calculate_driver_pay load =
        (total <- py_mul rate miles ;;
         pay <- py_mul total (VFloat quarter) ;;
         amount <- py_round2 pay ;;
         Ok (driver_pay_record amount "calculated_from_rate_per_mile"))%res) /\
       (rate = VNone \/ py_gt0 miles = Ok false ->
        calculate_driver_pay load =
        Ok (driver_pay_record (VStr "Not Available") "insufficient_data"))).
Proof.
  intros load miles Hmiles. unfold calculate_driver_pay.
  rewrite Hmiles; simpl. split.
  - intros total Htotal Hsome. rewrite Htotal; simpl.
    pose proof (total_amount_positive _ _ Htotal Hsome) as Hpos.
    destruct (py_gt0_truthy _ Hpos) as [Htrue _].
    unfold truthy_and_gt0. now rewrite Htrue, Hpos.
  - intros Hnone rate Hrate. rewrite Hnone, Hrate; simpl. split.
    + intros Hsome Hm.
      pose proof (broker_rate_without_total _ _ Hnone Hrate Hsome) as Hpos.
      destruct (py_gt0_truthy _ Hpos) as [Htrue _].
      unfold truthy_and_gt0. now rewrite Htrue, Hpos, Hm.
    + intros [-> | Hm]; [reflexivity |].
      unfold truthy_and_gt0.
      destruct (truthy rate) eqn:Htrue; [| reflexivity].
      assert (Hsome : rate <> VNone) by (intros ->; discriminate).
      rewrite (broker_rate_without_total _ _ Hnone Hrate Hsome); simpl.
      now rewrite Hm.
Qed.

(* ------------------------------------------------------------------ *)
(** ** The rate comparison *)

Section Comparison.
Context {env : Env}.

Lemma float_of_100 : float_of_int 100 = Ok hundred.
Proof. reflexivity. Qed.

Lemma quarter_is_a_quarter : quarter = decimal 25 2.
Proof. reflexivity. Qed.

Lemma percentage_difference_floats (l m : spec_float) :
  py_gt0 (VFloat m) = Ok true ->
  percentage_difference (VFloat l) (VFloat m) = Ok (VFloat (float_difference l m)).
Proof.
  intros Hm. destruct (py_gt0_truthy _ Hm) as [Htrue _]. simpl in Htrue.
  apply negb_true_iff in Htrue.
  unfold percentage_difference, py_sub, py_truediv, py_mul, arith; simpl.
  unfold float_truediv. rewrite Htrue. simpl. reflexivity.
Qed.

Lemma comparison_text_float (d : spec_float) :
  comparison_text (VFloat d) = Ok (float_label d).
Proof.
  unfold comparison_text, float_label, py_gt0, py_lt0, rounded_with; simpl.
  destruct (SFltb fzero d); simpl; [reflexivity |].
  destruct (SFltb d fzero); reflexivity.
Qed.

(** C2: on two rates above zero the comparison reports the difference
    [((broker - market) / market) * 100] rounded to two places, and
    words it by the sign of the difference before rounding: above it
    when above zero, below it when below zero, at market otherwise, so
    at market on a zero, and above or below on a difference that is
    not zero and rounds to zero. *)
Theorem comparison_of_positive_rates :
  forall load_rate market_rate : value,
    py_gt0 load_rate = Ok true -> py_gt0 market_rate = Ok true ->
    get_rate_comparison load_rate market_rate =
    (difference <- percentage_difference load_rate market_rate ;;
     comparison <- comparison_text difference ;;
     rounded <- py_round2 difference ;;
     Ok (comparison_record load_rate market_rate rounded comparison))%res /\
    (forall l m, load_rate = VFloat l -> market_rate = VFloat m ->
       get_rate_comparison load_rate market_rate =
       Ok (comparison_record load_rate market_rate
             (VFloat (float_round2 (float_difference l m)))
             (float_label (float_difference l m)))) /\
    (forall difference,
       (py_gt0 difference = Ok true ->
        comparison_text difference =
        rounded_with difference "% above market rate") /\
       (py_lt0 difference = Ok true ->
        comparison_text difference =
        rounded_with difference "% below market rate") /\
       (py_gt0 difference = Ok false -> py_lt0 difference = Ok false ->
        comparison_text difference = Ok (VStr "At market rate"))) /\
    (forall s, comparison_text (VFloat (S754_zero s)) = Ok (VStr "At market rate")) /\
    (exists difference,
       percentage_difference near_load_rate near_market_rate = Ok difference /\
       py_gt0 difference = Ok true /\
       py_round2 difference = Ok (VFloat fzero) /\
       get_rate_comparison near_load_rate near_market_rate =
       Ok (comparison_record near_load_rate near_market_rate (VFloat fzero)
             (VStr (py_repr (VFloat fzero) ++ "% above market rate")))).
Proof.
  intros load_rate market_rate Hl Hm.
  assert (Hgeneral :
    get_rate_comparison load_rate market_rate =
    (difference <- percentage_difference load_rate market_rate ;;
     comparison <- comparison_text difference ;;
     rounded <- py_round2 difference ;;
     Ok (comparison_record load_rate market_rate rounded comparison))%res).
  { unfold get_rate_comparison.
    rewrite (py_gt0_none_or_le0 _ Hl); simpl.
    rewrite (py_gt0_none_or_le0 _ Hm); simpl. reflexivity. }
  split; [exact Hgeneral |]. split; [| split; [| split]].
  - intros l m -> ->. rewrite Hgeneral.
    rewrite (percentage_difference_floats l m Hm); simpl.
    rewrite comparison_text_float; simpl. reflexivity.
  - intros difference. unfold comparison_text. repeat split.
    + intros H. now rewrite H.
    + intros H. rewrite (py_lt0_not_gt0 _ H); simpl. now rewrite H.
    + intros H1 H2. rewrite H1; simpl. now rewrite H2.
  - intros s. rewrite comparison_text_float. now destruct s.
  - eexists. split; [vm_compute; reflexivity |].
    split; [vm_compute; reflexivity |].
    split; [vm_compute; reflexivity |].
    unfold get_rate_comparison, near_load_rate, near_market_rate; simpl.
    reflexivity.
Qed.

(** C5: when a rate is missing or not above zero on either side, each
    such side is reported by the sentinel and the other side, above
    zero, by its own value; the difference is the not-applicable
    sentinel and the wording says no comparison is possible. *)
Theorem comparison_not_possible :
  forall (load_rate market_rate : value) (no_load no_market : bool),
    none_or_le0 load_rate = Ok no_load ->
    none_or_le0 market_rate = Ok no_market ->
    no_load || no_market = true ->
    get_rate_comparison load_rate market_rate =
    Ok (comparison_record
          (if no_load then VStr "Not Available" else load_rate)
          (if no_market then VStr "Not Available" else market_rate)
          (VStr "N/A")
          (VStr "Rate comparison not possible")) /\
    (py_gt0 load_rate = Ok true -> no_load = false) /\
    (py_gt0 market_rate = Ok true -> no_market = false).
Proof.
  intros load_rate market_rate no_load no_market Hl Hm Hany. split.
  - unfold get_rate_comparison, not_available_or. rewrite Hl; simpl.
    destruct no_load; simpl in *.
    + rewrite Hm; simpl. reflexivity.
    + subst no_market. rewrite Hm; simpl. reflexivity.
  - split; intros H; apply py_gt0_none_or_le0 in H; congruence.
Qed.

End Comparison.

(* ------------------------------------------------------------------ *)
(** ** The rate service client *)

Section Client.
Context {env : Env}.

Lemma lookup_payload_of_places (origin destination : value) (equipment : string) :
  is_dict origin = true -> is_dict destination = true ->
  exists payload, lookup_payload origin destination equipment = Ok payload.
Proof.
  destruct origin; try discriminate. destruct destination; try discriminate.
  intros _ _. eexists. reflexivity.
Qed.

(** C9: with the two places mappings, the call answers the parsed body
    on the statuses 200 and 201 and on those only, the record of the
    API error with the status and the body on every other status, and
    the record of the exception when the transport raises; in every
    case it returns and raises nothing. *)
Theorem rateview_call_outcomes :
  forall (origin destination : value) (equipment : string)
         (access_token : value) (w : world),
    is_dict origin = true -> is_dict destination = true ->
    exists payload,
      lookup_payload origin destination equipment = Ok payload /\
      let call := call_rateview_api origin destination equipment access_token w in
      let answer := requests_post url (request_headers access_token) payload w in
      (forall r body,
         fst answer = Responded r ->
         status_code r = 200 \/ status_code r = 201 ->
         json r = Ok body ->
         call = (Ok body, snd answer)) /\
      (forall r e,
         fst answer = Responded r ->
         status_code r = 200 \/ status_code r = 201 ->
         json r = Raise e ->
         call = (Ok (error_record ("Exception: " ++ exn_msg e)), snd answer)) /\
      (forall r,
         fst answer = Responded r ->
         status_code r <> 200 -> status_code r <> 201 ->
         call = (Ok (VDict [("error", VStr ("API Error: " ++ str_of_Z (status_code r)));
                            ("detail", VStr (text r))]),
                 snd answer)) /\
      (forall e,
         fst answer = Failed e ->
         call = (Ok (error_record ("Exception: " ++ exn_msg e)), snd answer)) /\
      (exists v, fst call = Ok v).
Proof.
  intros origin destination equipment access_token w Ho Hd.
  destruct (lookup_payload_of_places origin destination equipment Ho Hd)
    as [payload Hpayload].
  exists payload. split; [exact Hpayload |].
  unfold call_rateview_api, bind, lift, try_except, post_lookup, ret.
  rewrite Hpayload. cbv zeta.
  destruct (requests_post url (request_headers access_token) payload w)
    as [[r | e] w'] eqn:Hanswer; simpl.
  - destruct ((status_code r =? 200) || (status_code r =? 201)) eqn:Hstatus.
    + repeat split.
      * intros r0 body H _ Hbody. injection H as <-. now rewrite Hbody.
      * intros r0 e H _ Hbody. injection H as <-. now rewrite Hbody.
      * intros r0 H H200 H201. injection H as <-.
        apply orb_true_iff in Hstatus as [H | H]; apply Z.eqb_eq in H;
          contradiction.
      * discriminate.
      * destruct (json r); simpl; eexists; reflexivity.
    + apply orb_false_iff in Hstatus as [H200 H201].
      apply Z.eqb_neq in H200, H201.
      repeat split.
      * intros r0 body H [Hs | Hs]; injection H as <-; contradiction.
      * intros r0 e H [Hs | Hs]; injection H as <-; contradiction.
      * intros r0 H _ _. injection H as <-. reflexivity.
      * discriminate.
      * eexists; reflexivity.
  - repeat split; try discriminate.
    + intros e0 H. injection H as <-. reflexivity.
    + eexists; reflexivity.
Qed.

End Client.

(* ------------------------------------------------------------------ *)
(** ** The batch *)

Section Batch.
Context {env : Env}.



Lemma for_matches_outcomes (matches : list value) (access_token : value) :
  forall (processed : list value) (w : world),
    for_matches matches access_token processed w =
    (outcomes <- outcomes_of matches access_token ;;
     ret (processed ++ kept outcomes)%list)%se w.
Proof.
  induction matches as [| m rest IH]; intros processed w.
  - unfold bind; simpl. unfold ret. now rewrite app_nil_r.
  - cbn [for_matches outcomes_of]. unfold bind, ret.
    destruct (process_match m access_token w) as [[outcome | e] w1];
      [| reflexivity].
    destruct outcome as [processed_match |]; rewrite IH; unfold bind, ret;
      destruct (outcomes_of rest access_token w1) as [[others | e] w2];
      simpl; try reflexivity.
    now rewrite <- app_assoc.
Qed.









(** *** The order of the processed matches *)

Lemma assoc_dict_set_other (k k' : string) (v : value) (d : list (string * value)) :
  k <> k' -> assoc k (dict_set k' v d) = assoc k d.
Proof.
  intros Hk. induction d as [| [k0 v0] d IH]; simpl.
  - destruct (String.eqb k k') eqn:E; [| reflexivity].
    apply String.eqb_eq in E. contradiction.
  - destruct (String.eqb k' k0) eqn:E'; simpl.
    + apply String.eqb_eq in E'. subst k0.
      destruct (String.eqb k k') eqn:E; [| reflexivity].
      apply String.eqb_eq in E. contradiction.
    + now rewrite IH.
Qed.

Ltac step H :=
  match type of H with
  | context [match ?x with _ => _ end] =>
      let E := fresh "E" in destruct x eqn:E; try discriminate H
  end.

Ltac steps :=
  repeat match goal with
         | H : context [match ?x with _ => _ end] |- _ =>
             let E := fresh "E" in destruct x eqn:E; try discriminate H
         end.

Lemma add_market_data_keeps (found : locals) (d d' : list (string * value))
    (k : string) :
  k <> "marketData" ->
  add_market_data found d = Ok d' -> assoc k d' = assoc k d.
Proof.
  intros Hk H. unfold add_market_data, rbind in H.
  repeat step H; injection H as <-;
    try reflexivity; now apply assoc_dict_set_other.
Qed.

(** A processed match carries the matchId read from its match. *)
Lemma processed_match_id (m access_token processed_match : value) (w w' : world) :
  process_match m access_token w = (Ok (Some processed_match), w') ->
  py_getitem processed_match "matchId" = py_get m "matchId" (VStr "").
Proof.
  unfold process_match, bind, lift, ret.
  destruct (match_places m) as [[[[match_id info] origin] place] | e] eqn:Hplaces;
    [| discriminate].
  cbv zeta.
  assert (Hid : py_get m "matchId" (VStr "") = Ok match_id).
  { unfold match_places, rbind in Hplaces. repeat step Hplaces.
    now injection Hplaces as <- _ _ _. }
  rewrite Hid.
  destruct (missing_place origin place); [discriminate |].
  unfold build_processed_match, bind, lift, rbind.
  intros H. steps.
  match goal with
  | E : add_market_data _ _ = Ok _ |- _ =>
      apply (add_market_data_keeps _ _ _ "matchId") in E; [| discriminate]
  end.
  repeat match goal with
         | E : (_, _) = (_, _) |- _ => injection E as E; subst
         | E : Ok _ = Ok _ |- _ => injection E as E; subst
         end.
  simpl in *.
  match goal with
  | E : assoc "matchId" _ = _ |- _ => now rewrite E
  end.
Qed.

Lemma kept_ids_in_order (access_token : value) (matches : list value) :
  forall (outcomes : list (option value)) (w w' : world),
    outcomes_of matches access_token w = (Ok outcomes, w') ->
    List.length outcomes = List.length matches /\
    subsequence
      (map (fun processed_match => py_getitem processed_match "matchId")
           (kept outcomes))
      (map (fun m => py_get m "matchId" (VStr "")) matches).
Proof.
  induction matches as [| m rest IH]; intros outcomes w w'.
  - cbn [outcomes_of]. unfold ret. intros H. injection H as <- _.
    split; [reflexivity | constructor].
  - cbn [outcomes_of]. unfold bind, ret.
    destruct (process_match m access_token w) as [[outcome | e] w1] eqn:Hm;
      [| discriminate].
    destruct (outcomes_of rest access_token w1) as [[others | e] w2] eqn:Hrest;
      [| discriminate].
    intros H. injection H as <- <-.
    destruct (IH _ _ _ Hrest) as [Hlength Hsub].
    split; [simpl; now rewrite Hlength |].
    destruct outcome as [processed_match |]; cbn [kept map].
    + rewrite (processed_match_id _ _ _ _ _ Hm). now constructor.
    + now constructor.
Qed.

(** C8: the processed matches are the entries of the matches that
    were not skipped, each match processed by itself, in the order of
    the input: the list is what is kept of the outcomes taken match by
    match from the first to the last, and its matchIds are the input's
    with some left out and the others in their order. *)
Theorem processed_matches_keep_order :
  forall (loads access_token counts : value) (matches : list value) (w : world),
    py_get loads "matchCounts" (VDict []) = Ok counts ->
    py_get loads "matches" (VList []) = Ok (VList matches) ->
    process_loads_and_compare_rates loads access_token w =
    (outcomes <- outcomes_of matches access_token ;;
     ret (VDict [("matchCounts", counts);
                 ("processedMatches", VList (kept outcomes))]))%se w /\
    (forall (result : value) (w' : world),
       process_loads_and_compare_rates loads access_token w = (Ok result, w') ->
       exists outcomes,
         outcomes_of matches access_token w = (Ok outcomes, w') /\
         py_getitem result "processedMatches" = Ok (VList (kept outcomes)) /\
         List.length outcomes = List.length matches /\
         subsequence
           (map (fun processed_match => py_getitem processed_match "matchId")
                (kept outcomes))
           (map (fun m => py_get m "matchId" (VStr "")) matches)).
Proof.
  intros loads access_token counts matches w Hcounts Hmatches.
  assert (Hrun :
    process_loads_and_compare_rates loads access_token w =
    (outcomes <- outcomes_of matches access_token ;;
     ret (VDict [("matchCounts", counts);
                 ("processedMatches", VList (kept outcomes))]))%se w).
  { unfold process_loads_and_compare_rates, bind, lift, ret.
    rewrite Hcounts, Hmatches. cbn [py_iter].
    rewrite for_matches_outcomes. unfold bind, ret.
    destruct (outcomes_of matches access_token w) as [[outcomes | e] w1];
      reflexivity. }
  split; [exact Hrun |].
  intros result w'. rewrite Hrun. unfold bind, ret.
  destruct (outcomes_of matches access_token w) as [[outcomes | e] w1] eqn:Hout;
    [| discriminate].
  intros H. injection H as <- <-.
  exists outcomes. split; [reflexivity |]. split; [reflexivity |].
  exact (kept_ids_in_order _ _ _ _ _ Hout).
Qed.

(** *** The job boundary *)

Lemma process_returns_mapping (loads access_token result : value) (w w' : world) :
  process_freight_data loads access_token w = (Ok result, w') ->
  exists d, result = VDict d.
Proof.
  unfold process_freight_data, process_loads_and_compare_rates, bind, lift, ret.
  intros H. steps. injection H as <- _. eexists; reflexivity.
Qed.

(** C1, as amended: on every job that holds an input, the handler
    returns a mapping and raises nothing; the input that is no mapping,
    the freight data and then the access token that are not true as a
    condition are each answered by their error, in that order; and
    whatever the processing raises is answered by the processing
    error with its message. *)
Theorem handler_returns_mapping :
  forall (job job_input : value) (w : world),
    py_getitem job "input" = Ok job_input ->
    (exists d, fst (handler job w) = Ok (VDict d)) /\
    (is_dict job_input = false ->
     handler job w = (Ok (error_record "Input must be a dictionary"), w)) /\
    (is_dict job_input = true ->
     exists freight_data access_token,
       py_get job_input "freight_data" VNone = Ok freight_data /\
       py_get job_input "access_token" VNone = Ok access_token /\
       (truthy freight_data = false ->
        handler job w =
        (Ok (error_record "Missing required parameter: freight_data"), w)) /\
       (truthy freight_data = true -> truthy access_token = false ->
        handler job w =
        (Ok (error_record "Missing required parameter: access_token"), w)) /\
       (truthy freight_data = true -> truthy access_token = true ->
        (forall e w',
           process_freight_data freight_data access_token w = (Raise e, w') ->
           handler job w =
           (Ok (error_record ("Processing error: " ++ exn_msg e)), w')) /\
        (forall result w',
           process_freight_data freight_data access_token w = (Ok result, w') ->
           handler job w = (Ok result, w')))).
Proof.
  intros job job_input w Hinput. unfold handler, bind, lift, ret, try_except.
  rewrite Hinput.
  destruct job_input as [| | | | | | d];
    try (split; [eexists; reflexivity |];
         split; [reflexivity | discriminate]).
  cbn [is_dict negb py_get].
  set (freight_data := match assoc "freight_data" d with
                       | Some v => v | None => VNone end).
  set (access_token := match assoc "access_token" d with
                       | Some v => v | None => VNone end).
  destruct (truthy freight_data) eqn:Hf; cbn [negb].
  - destruct (truthy access_token) eqn:Ha; cbn [negb].
    + destruct (process_freight_data freight_data access_token w)
        as [[result | e] w1] eqn:Hrun.
      * destruct (process_returns_mapping _ _ _ _ _ Hrun) as [r ->].
        split; [eexists; reflexivity |]. split; [discriminate |].
        intros _. exists freight_data, access_token.
        repeat split; try discriminate; try congruence.
      * split; [eexists; reflexivity |]. split; [discriminate |].
        intros _. exists freight_data, access_token.
        repeat split; try discriminate; try congruence.
    + split; [eexists; reflexivity |]. split; [discriminate |].
      intros _. exists freight_data, access_token.
      repeat split; try discriminate; try congruence.
  - split; [eexists; reflexivity |]. split; [discriminate |].
    intros _. exists freight_data, access_token.
    repeat split; try discriminate; try congruence.
Qed.

End Batch.

(* ------------------------------------------------------------------ *)
(** ** The properties on the sample data *)

Lemma broker_rate_order_witness :
  get_broker_rate_per_mile rate_per_mile_load = Ok (VFloat (decimal 200 2)) /\
  get_broker_rate_per_mile no_miles_load = Ok VNone /\
  get_broker_rate_per_mile board_rate_load = Ok (VFloat (decimal 2 0)).
Proof.
  split; [| split].
  - exact (proj1 (broker_rate_order rate_per_mile_load (VFloat (decimal 200 2))
                    eq_refl) eq_refl).
  - destruct (broker_rate_order no_miles_load (VInt 0) eq_refl) as [_ H].
    exact (proj1 (H eq_refl (VInt 0) eq_refl) eq_refl).
  - destruct (broker_rate_order board_rate_load (VInt 0) eq_refl) as [_ H].
    destruct (H eq_refl (VInt 450) eq_refl) as [_ H1].
    destruct (H1 eq_refl (VInt 0) eq_refl) as [_ H2].
    destruct (H2 eq_refl (VInt 900) eq_refl) as [H3 _].
    rewrite (H3 eq_refl). reflexivity.
Defined.

Lemma driver_pay_policy_witness :
  calculate_driver_pay total_amount_load =
  Ok (driver_pay_record (VFloat (decimal 100 0)) "percentage_of_total") /\
  calculate_driver_pay rate_per_mile_load =
  Ok (driver_pay_record (VFloat (decimal 250 0)) "calculated_from_rate_per_mile") /\
  calculate_driver_pay (VDict []) =
  Ok (driver_pay_record (VStr "Not Available") "insufficient_data").
Proof.
  split; [| split].
  - destruct (driver_pay_policy total_amount_load (VInt 0) eq_refl) as [H _].
    rewrite (H (VInt 400)); [reflexivity | reflexivity | discriminate].
  - destruct (driver_pay_policy rate_per_mile_load (VInt 500) eq_refl) as [_ H].
    destruct (H eq_refl (VFloat (decimal 200 2)) eq_refl) as [H' _].
    rewrite H'; [reflexivity | discriminate | reflexivity].
  - destruct (driver_pay_policy (VDict []) (VInt 0) eq_refl) as [_ H].
    destruct (H eq_refl VNone eq_refl) as [_ H'].
    exact (H' (or_introl eq_refl)).
Defined.

Lemma comparison_of_positive_rates_witness :
  get_rate_comparison (env := scripted)
    (VFloat (decimal 25 1)) (VFloat (decimal 2 0)) =
  Ok (comparison_record (VFloat (decimal 25 1)) (VFloat (decimal 2 0))
        (VFloat (decimal 25 0)) (VStr "<float>% above market rate")) /\
  get_rate_comparison (env := scripted)
    (VFloat (decimal 2 0)) (VFloat (decimal 25 1)) =
  Ok (comparison_record (VFloat (decimal 2 0)) (VFloat (decimal 25 1))
        (VFloat (decimal (-20) 0)) (VStr "<float>% below market rate")) /\
  get_rate_comparison (env := scripted)
    (VFloat (decimal 2 0)) (VFloat (decimal 2 0)) =
  Ok (comparison_record (VFloat (decimal 2 0)) (VFloat (decimal 2 0))
        (VFloat fzero) (VStr "At market rate")).
Proof.
  split; [| split].
  - destruct (comparison_of_positive_rates (env := scripted)
                (VFloat (decimal 25 1)) (VFloat (decimal 2 0)) eq_refl eq_refl)
      as [_ [H _]].
    rewrite (H _ _ eq_refl eq_refl). reflexivity.
  - destruct (comparison_of_positive_rates (env := scripted)
                (VFloat (decimal 2 0)) (VFloat (decimal 25 1)) eq_refl eq_refl)
      as [_ [H _]].
    rewrite (H _ _ eq_refl eq_refl). reflexivity.
  - destruct (comparison_of_positive_rates (env := scripted)
                (VFloat (decimal 2 0)) (VFloat (decimal 2 0)) eq_refl eq_refl)
      as [_ [H _]].
    rewrite (H _ _ eq_refl eq_refl). reflexivity.
Defined.

Lemma comparison_not_possible_witness :
  get_rate_comparison (env := scripted) VNone (VFloat (decimal 2 0)) =
  Ok (comparison_record (VStr "Not Available") (VFloat (decimal 2 0))
        (VStr "N/A") (VStr "Rate comparison not possible")) /\
  get_rate_comparison (env := scripted) (VInt 0) (VFloat (decimal 2 0)) =
  Ok (comparison_record (VStr "Not Available") (VFloat (decimal 2 0))
        (VStr "N/A") (VStr "Rate comparison not possible")).
Proof.
  split.
  - exact (proj1 (comparison_not_possible (env := scripted)
                    VNone (VFloat (decimal 2 0)) true false
                    eq_refl eq_refl eq_refl)).
  - exact (proj1 (comparison_not_possible (env := scripted)
                    (VInt 0) (VFloat (decimal 2 0)) true false
                    eq_refl eq_refl eq_refl)).
Defined.

Lemma rateview_call_outcomes_witness :
  call_rateview_api (env := scripted) (place "Chicago" "IL") (place "Dallas" "TX")
    "VAN" sample_token [server_error] =
  (Ok (VDict [("error", VStr "API Error: 500");
              ("detail", VStr "Internal Server Error")]), []) /\
  call_rateview_api (env := scripted) (place "Chicago" "IL") (place "Dallas" "TX")
    "VAN" sample_token [] =
  (Ok (error_record "Exception: no answer"), []).
Proof.
  split.
  - destruct (rateview_call_outcomes (env := scripted)
                (place "Chicago" "IL") (place "Dallas" "TX") "VAN" sample_token
                [server_error] eq_refl eq_refl)
      as [payload [_ [_ [_ [H _]]]]].
    apply (H _ eq_refl); discriminate.
  - destruct (rateview_call_outcomes (env := scripted)
                (place "Chicago" "IL") (place "Dallas" "TX") "VAN" sample_token
                [] eq_refl eq_refl)
      as [payload [_ [_ [_ [_ [H _]]]]]].
    apply (H _ eq_refl).
Defined.



Lemma processed_matches_keep_order_witness :
  exists outcomes,
    outcomes_of (env := scripted) [match_a; match_b; match_c] sample_token
      [rate_answer; server_error] = (Ok outcomes, []) /\
    map (fun processed_match => py_getitem processed_match "matchId")
        (kept outcomes) = [Ok (VStr "a"); Ok (VStr "c")].
Proof.
  destruct (processed_matches_keep_order (env := scripted)
              (freight_of [match_a; match_b; match_c]) sample_token
              sample_counts [match_a; match_b; match_c]
              [rate_answer; server_error] eq_refl eq_refl)
    as [_ H].
  edestruct H as [outcomes [Hout _]]; [vm_compute; reflexivity |].
  exists outcomes. split; [exact Hout |].
  vm_compute in Hout. injection Hout as <-. reflexivity.
Defined.

Lemma handler_returns_mapping_witness :
  (exists d,
     fst (handler (env := scripted) (job_of [match_a; match_b; match_c])
            [rate_answer; server_error]) = Ok (VDict d)) /\
  handler (env := scripted) (VDict [("input", VList [])]) [] =
  (Ok (error_record "Input must be a dictionary"), []) /\
  handler (env := scripted)
    (VDict [("input", VDict [("access_token", sample_token)])]) [] =
  (Ok (error_record "Missing required parameter: freight_data"), []) /\
  handler (env := scripted)
    (VDict [("input", VDict [("freight_data", freight_of [])])]) [] =
  (Ok (error_record "Missing required parameter: access_token"), []) /\
  handler (env := scripted)
    (VDict [("input", VDict [("freight_data", VList [VInt 1]);
                             ("access_token", sample_token)])]) [] =
  (Ok (error_record "Processing error: 'list' object has no attribute 'get'"), []).
Proof.
  split; [| split; [| split; [| split]]].
  - exact (proj1 (handler_returns_mapping (env := scripted)
                    (job_of [match_a; match_b; match_c])
                    (VDict [("freight_data", freight_of [match_a; match_b; match_c]);
                            ("access_token", sample_token)])
                    [rate_answer; server_error] eq_refl)).
  - exact (proj1 (proj2 (handler_returns_mapping (env := scripted)
                           (VDict [("input", VList [])]) (VList []) []
                           eq_refl)) eq_refl).
  - destruct (handler_returns_mapping (env := scripted)
                (VDict [("input", VDict [("access_token", sample_token)])])
                (VDict [("access_token", sample_token)]) [] eq_refl)
      as [_ [_ H]].
    destruct (H eq_refl) as (freight & token & Hf & Ht & Hmissing & _).
    injection Hf as <-. exact (Hmissing eq_refl).
  - destruct (handler_returns_mapping (env := scripted)
                (VDict [("input", VDict [("freight_data", freight_of [])])])
                (VDict [("freight_data", freight_of [])]) [] eq_refl)
      as [_ [_ H]].
    destruct (H eq_refl) as (freight & token & Hf & Ht & _ & Hmissing & _).
    injection Hf as <-. injection Ht as <-. exact (Hmissing eq_refl eq_refl).
  - destruct (handler_returns_mapping (env := scripted)
                (VDict [("input", VDict [("freight_data", VList [VInt 1]);
                                         ("access_token", sample_token)])])
                (VDict [("freight_data", VList [VInt 1]);
                        ("access_token", sample_token)]) [] eq_refl)
      as [_ [_ H]].
    destruct (H eq_refl) as (freight & token & Hf & Ht & _ & _ & Hrun).
    injection Hf as <-. injection Ht as <-.
    destruct (Hrun eq_refl eq_refl) as [Hraise _].
    exact (Hraise _ _ eq_refl).
Defined.

(** C1, as stated, fails on the job that holds no input: the lookup of
    the input is outside every [try], and its KeyError leaves the
    handler. *)
Lemma handler_raises_without_input :
  fst (handler (env := scripted) (VDict [("id", VStr "job-1")]) []) =
  Raise (Exn KeyError "'input'") /\
  ~ (exists d,
       fst (handler (env := scripted) (VDict [("id", VStr "job-1")]) []) =
       Ok (VDict d)).
Proof.
  split; [reflexivity |]. intros [d H]. discriminate H.
Qed.

(* ------------------------------------------------------------------ *)
(** * Further properties of the code *)

Ltac split_matches :=
  repeat match goal with
         | H : context [match ?x with _ => _ end] |- _ =>
             let E := fresh "E" in destruct x eqn:E; try discriminate H
         end.

(** ** The extractors and the driver pay *)

Lemma py_get_dict_set_other (d : list (string * value)) (key k : string)
    (v default : value) :
  k <> key ->
  py_get (VDict (dict_set key v d)) k default = py_get (VDict d) k default.
Proof.
  intros Hk. simpl. now rewrite (assoc_dict_set_other k key v d Hk).
Qed.

(** X1: the total amount reads the two rate entries of the load and
    nothing else: setting any other entry, the trip length or the
    estimated rate per mile among them, leaves it as it is. *)
Theorem total_amount_reads_two_entries :
  forall (d : list (string * value)) (key : string) (v : value),
    key <> "privateNetworkRateInfo" -> key <> "loadBoardRateInfo" ->
    get_total_load_amount (VDict (dict_set key v d)) =
    get_total_load_amount (VDict d).
Proof.
  intros d key v Hprivate Hboard.
  unfold get_total_load_amount, private_network_rate, load_board_rate.
  rewrite !py_get_dict_set_other by (intros H; symmetry in H; contradiction).
  reflexivity.
Qed.

Lemma total_amount_reads_two_entries_witness :
  get_total_load_amount
    (VDict (dict_set "tripLength" (VStr "far")
              [("tripLength", VDict [("miles", VInt 450)]);
               ("loadBoardRateInfo",
                VDict [("nonBookable", VDict [("rateUsd", VInt 900)])])])) =
  Ok (VInt 900).
Proof.
  rewrite total_amount_reads_two_entries; [reflexivity | |]; discriminate.
Defined.

(** X2: without an estimated rate above zero and with trip miles
    above zero, the broker rate per mile is the total amount of the
    load over the miles, and nothing when there is no total amount. *)
Theorem broker_rate_is_total_over_miles :
  forall load estimated miles : value,
    py_get load "estimatedRatePerMile" (VInt 0) = Ok estimated ->
    py_gt0 estimated = Ok false ->
    trip_miles load = Ok miles ->
    py_le0 miles = Ok false ->
    get_broker_rate_per_mile load =
    (total <- get_total_load_amount load ;;
     match total with
     | VNone => Ok VNone
     | _ => py_truediv total miles
     end)%res.
Proof.
  intros load estimated miles Hest Hno Hmiles Hle.
  unfold get_broker_rate_per_mile, get_total_load_amount.
  rewrite Hest; simpl. rewrite Hno, Hmiles; simpl. rewrite Hle; simpl.
  destruct (private_network_rate load) as [p | e]; simpl; [| reflexivity].
  destruct (py_gt0 p) as [[|] | e] eqn:Hp; simpl; try reflexivity.
  - destruct (py_gt0_truthy p Hp) as [_ Hsome].
    destruct p; try reflexivity. now contradiction Hsome.
  - destruct (load_board_rate load) as [b | e]; simpl; [| reflexivity].
    destruct (py_gt0 b) as [[|] | e] eqn:Hb; simpl; try reflexivity.
    destruct (py_gt0_truthy b Hb) as [_ Hsome].
    destruct b; try reflexivity. now contradiction Hsome.
Qed.

Lemma broker_rate_is_total_over_miles_witness :
  get_broker_rate_per_mile board_rate_load = Ok (VFloat (decimal 2 0)).
Proof.
  rewrite (broker_rate_is_total_over_miles board_rate_load (VInt 0) (VInt 450)
             eq_refl eq_refl eq_refl eq_refl).
  reflexivity.
Defined.

Lemma py_mul_quarter (x v : value) :
  py_mul x (VFloat quarter) = Ok v -> exists f, v = VFloat f.
Proof.
  unfold py_mul, arith, num_mul.
  destruct (as_number x) as [[z | g] |]; simpl; try discriminate.
  - destruct (float_of_int z); simpl; [| discriminate].
    intros H. injection H as <-. eexists; reflexivity.
  - intros H. injection H as <-. eexists; reflexivity.
Qed.

(** X3: what the driver pay returns is one of two shapes, the
    sentinel amount with insufficient_data, or a float amount with one
    of the two methods that calculate; never a sentinel with a
    calculating method, never an int. *)
Theorem driver_pay_shapes :
  forall load record : value,
    calculate_driver_pay load = Ok record ->
    record = driver_pay_record (VStr "Not Available") "insufficient_data" \/
    exists amount method,
      record = driver_pay_record (VFloat amount) method /\
      (method = "percentage_of_total" \/
       method = "calculated_from_rate_per_mile").
Proof.
  intros load record. unfold calculate_driver_pay, rbind. intros H.
  split_matches;
    try (injection H as <-; now left);
    match goal with
    | E : py_mul _ (VFloat quarter) = Ok ?v |- _ =>
        destruct (py_mul_quarter _ _ E) as [f ->]
    end;
    cbv [py_round2 as_number of_number num_round2] in *;
    repeat match goal with
           | E : Ok _ = Ok _ |- _ => injection E as E; subst
           end;
    right; eexists; eexists; (split; [reflexivity | auto]).
Qed.

Lemma driver_pay_shapes_witness :
  exists amount method,
    calculate_driver_pay total_amount_load =
    Ok (driver_pay_record (VFloat amount) method).
Proof.
  destruct (driver_pay_shapes total_amount_load
              (driver_pay_record (VFloat (decimal 100 0)) "percentage_of_total")
              eq_refl) as [H | (amount & method & H & _)].
  - discriminate H.
  - exists amount, method. now rewrite <- H.
Defined.

(** ** The rate comparison *)

Section ComparisonEdges.
Context {env : Env}.

Lemma percentage_difference_nonzero (l m : spec_float) :
  float_is_zero m = false ->
  percentage_difference (VFloat l) (VFloat m) = Ok (VFloat (float_difference l m)).
Proof.
  intros Hm.
  unfold percentage_difference, py_sub, py_truediv, py_mul, arith; simpl.
  unfold float_truediv. rewrite Hm. reflexivity.
Qed.

Lemma not_le0_nonzero (f : spec_float) :
  SFleb f fzero = false -> float_is_zero f = false.
Proof. destruct f as [s | s | | s m e]; try reflexivity. discriminate. Qed.

Lemma comparison_of_valid_floats (l m : spec_float) :
  SFleb l fzero = false -> SFleb m fzero = false ->
  get_rate_comparison (VFloat l) (VFloat m) =
  Ok (comparison_record (VFloat l) (VFloat m)
        (VFloat (float_round2 (float_difference l m)))
        (float_label (float_difference l m))).
Proof.
  intros Hl Hm. unfold get_rate_comparison.
  cbn [none_or_le0 py_le0 as_number num_le0 rbind]. rewrite Hl.
  cbn [rbind]. rewrite Hm. cbn [rbind].
  rewrite (percentage_difference_nonzero l m (not_le0_nonzero m Hm)).
  cbn [rbind]. rewrite comparison_text_float. reflexivity.
Qed.

(** X4: on rates that are absent or floats the comparison always
    returns its record of four entries: the division is never by zero
    and nothing else is raised, infinities and NaN included. *)
Theorem comparison_of_floats_returns :
  forall l m : option spec_float,
    exists broker market difference comparison,
      get_rate_comparison (rate_of l) (rate_of m) =
      Ok (comparison_record broker market difference comparison).
Proof.
  intros [l |] [m |]; cbn [rate_of].
  - destruct (SFleb l fzero) eqn:Hl; [| destruct (SFleb m fzero) eqn:Hm].
    + unfold get_rate_comparison, not_available_or.
      cbn [none_or_le0 py_le0 as_number num_le0 rbind]. rewrite Hl.
      cbn [rbind]. do 4 eexists. reflexivity.
    + unfold get_rate_comparison, not_available_or.
      cbn [none_or_le0 py_le0 as_number num_le0 rbind]. rewrite Hl.
      cbn [rbind]. rewrite Hm. cbn [rbind]. do 4 eexists. reflexivity.
    + rewrite (comparison_of_valid_floats l m Hl Hm). do 4 eexists. reflexivity.
  - unfold get_rate_comparison, not_available_or.
    cbn [none_or_le0 py_le0 as_number num_le0 rbind].
    destruct (SFleb l fzero); cbn [rbind]; do 4 eexists; reflexivity.
  - unfold get_rate_comparison, not_available_or.
    cbn [none_or_le0 py_le0 as_number num_le0 rbind].
    do 4 eexists; reflexivity.
  - do 4 eexists; reflexivity.
Qed.

Lemma float_difference_of_equal (m : positive) (e : Z) :
  float_difference (S754_finite false m e) (S754_finite false m e) = fzero.
Proof.
  unfold float_difference.
  replace (SFsub prec emax (S754_finite false m e) (S754_finite false m e))
    with (S754_zero false); [reflexivity |].
  unfold SFsub. rewrite Z.sub_diag. reflexivity.
Qed.

(** X5: a rate above zero compared with itself, a finite float or an
    int, is at market with a difference of 0.0. *)
Theorem equal_rates_are_at_market :
  (forall (m : positive) (e : Z),
     get_rate_comparison (VFloat (S754_finite false m e))
                         (VFloat (S754_finite false m e)) =
     Ok (comparison_record (VFloat (S754_finite false m e))
                           (VFloat (S754_finite false m e))
                           (VFloat fzero) (VStr "At market rate"))) /\
  (forall z : Z,
     0 < z ->
     get_rate_comparison (VInt z) (VInt z) =
     Ok (comparison_record (VInt z) (VInt z)
                           (VFloat fzero) (VStr "At market rate"))).
Proof.
  split.
  - intros m e.
    rewrite comparison_of_valid_floats by reflexivity.
    now rewrite float_difference_of_equal.
  - intros z Hz. unfold get_rate_comparison.
    cbn [none_or_le0 py_le0 as_number num_le0 rbind].
    assert (Hle : (z <=? 0) = false) by (apply Z.leb_gt; exact Hz).
    rewrite Hle. cbn [rbind].
    unfold percentage_difference, py_sub, py_truediv, arith.
    cbn [as_number num_sub rbind of_number num_truediv]. rewrite Z.sub_diag.
    unfold int_truediv.
    assert (Hne : (z =? 0) = false) by (apply Z.eqb_neq; lia).
    assert (Hnn : (z <? 0) = false) by (apply Z.ltb_ge; lia).
    rewrite Hne, Hnn. reflexivity.
Qed.

(** X6: a NaN passes the test against zero, so with a NaN on a side
    and no side absent or at most zero, the rates are compared: the
    difference is NaN and the wording is at market. *)
Theorem nan_rate_is_at_market :
  forall l m : spec_float,
    l = S754_nan \/ m = S754_nan ->
    SFleb l fzero = false -> SFleb m fzero = false ->
    get_rate_comparison (VFloat l) (VFloat m) =
    Ok (comparison_record (VFloat l) (VFloat m)
                          (VFloat S754_nan) (VStr "At market rate")).
Proof.
  intros l m Hnan Hl Hm. rewrite (comparison_of_valid_floats l m Hl Hm).
  assert (Hd : float_difference l m = S754_nan).
  { unfold float_difference. destruct Hnan as [-> | ->].
    - reflexivity.
    - now destruct l. }
  now rewrite Hd.
Qed.

End ComparisonEdges.

Lemma nan_rate_is_at_market_witness :
  get_rate_comparison (env := scripted) (VFloat S754_nan) (VFloat (decimal 2 0)) =
  Ok (comparison_record (VFloat S754_nan) (VFloat (decimal 2 0))
                        (VFloat S754_nan) (VStr "At market rate")).
Proof.
  exact (nan_rate_is_at_market (env := scripted) S754_nan (decimal 2 0)
           (or_introl eq_refl) eq_refl eq_refl).
Defined.

(** ** The client and the reading of its answer *)

(** X7: the payload is put together before the [try]: when the
    origin or the destination is no mapping the call raises the
    AttributeError of its [.get], and nothing has been sent. *)
Theorem rateview_call_needs_mappings :
  forall {env : Env} (origin destination : value) (equipment : string)
         (access_token : value) (w : world),
    is_dict origin = false \/ is_dict destination = false ->
    call_rateview_api origin destination equipment access_token w =
    (Raise (no_attribute (if is_dict origin then destination else origin) "get"),
     w).
Proof.
  intros env origin destination equipment access_token w H.
  unfold call_rateview_api, bind, lift, lookup_payload.
  destruct origin; destruct destination; simpl in *;
    try reflexivity; destruct H; discriminate.
Qed.

Lemma rateview_call_needs_mappings_witness :
  call_rateview_api (env := scripted) (VStr "Chicago, IL") (place "Dallas" "TX")
    "VAN" sample_token [rate_answer] =
  (Raise (Exn AttributeError "'str' object has no attribute 'get'"),
   [rate_answer]).
Proof.
  exact (rateview_call_needs_mappings (env := scripted)
           (VStr "Chicago, IL") (place "Dallas" "TX") "VAN" sample_token
           [rate_answer] (or_introl eq_refl)).
Defined.

Ltac run_try :=
  unfold market_of_response, try_except, read_rateview_response, read_rate,
    has_per_mile_rate, nonempty, bind, lift, ret, set_market_data,
    set_rate_data, set_market_rate_per_mile, modify;
  cbn [py_contains py_get py_getitem rbind].

Lemma error_record_read (body : list (string * value)) (message : value) :
  assoc "error" body = Some message ->
  market_of_response (VDict body) =
  {| market_rate_per_mile := VNone;
     market_data := VDict [("error", message)];
     rate_data := VNone |}.
Proof.
  intros He. run_try. now rewrite He.
Qed.

(** X8: an answer with an [error] entry, as every failure record of
    the client has, is read as that error alone: no rate, no market
    rate, whatever else the answer holds. *)
Theorem error_answer_is_read_alone :
  forall (body : list (string * value)) (message : value),
    assoc "error" body = Some message ->
    market_of_response (VDict body) =
    {| market_rate_per_mile := VNone;
       market_data := VDict [("error", message)];
       rate_data := VNone |}.
Proof.
  intros body message He. now apply error_record_read.
Qed.

Lemma error_answer_is_read_alone_witness :
  market_of_response
    (VDict [("error", VStr "API Error: 500");
            ("detail", VStr "Internal Server Error")]) =
  {| market_rate_per_mile := VNone;
     market_data := VDict [("error", VStr "API Error: 500")];
     rate_data := VNone |}.
Proof.
  exact (error_answer_is_read_alone
           [("error", VStr "API Error: 500");
            ("detail", VStr "Internal Server Error")]
           (VStr "API Error: 500") eq_refl).
Defined.

(** X9: of the rate responses of an answer only the first is read.
    Its response object becomes the market data and its rate mapping
    the rate data; the market rate per mile is the [rateUsd] of the
    rate's [perMile], and stays [None] when the rate has no [perMile]
    or the [perMile] no [rateUsd]. *)
Theorem first_rate_response_is_read :
  forall (body first response_obj rate : list (string * value))
         (others : list value),
    assoc "error" body = None ->
    assoc "rateResponses" body = Some (VList (VDict first :: others)) ->
    assoc "response" first = Some (VDict response_obj) ->
    assoc "rate" response_obj = Some (VDict rate) ->
    (forall per_mile rate_usd,
       assoc "perMile" rate = Some (VDict per_mile) ->
       assoc "rateUsd" per_mile = Some rate_usd ->
       market_of_response (VDict body) =
       {| market_rate_per_mile := rate_usd;
          market_data := VDict response_obj;
          rate_data := VDict rate |}) /\
    (assoc "perMile" rate = None \/
     (exists per_mile, assoc "perMile" rate = Some (VDict per_mile) /\
                       assoc "rateUsd" per_mile = None) ->
     market_of_response (VDict body) =
     {| market_rate_per_mile := VNone;
        market_data := VDict response_obj;
        rate_data := VDict rate |}).
Proof.
  intros body first response_obj rate others He Hr Hf Hrate. split.
  - intros per_mile rate_usd Hp Hv. run_try.
    rewrite He, Hr. cbn [truthy py_len rbind py_getitem0 py_get].
    rewrite Hf. cbn [py_contains py_getitem]. rewrite Hrate.
    cbn [py_contains py_getitem rbind]. rewrite Hp. cbn. rewrite Hv.
    reflexivity.
  - intros Hnone. run_try.
    rewrite He, Hr. cbn [truthy py_len rbind py_getitem0 py_get].
    rewrite Hf. cbn [py_contains py_getitem]. rewrite Hrate.
    cbn [py_contains py_getitem rbind].
    destruct Hnone as [Hp | [per_mile [Hp Hv]]]; rewrite Hp; cbn.
    + reflexivity.
    + rewrite Hv. reflexivity.
Qed.

Lemma first_rate_response_is_read_witness :
  market_rate_per_mile
    (market_of_response
       (VDict [("rateResponses",
                VList [VDict [("response",
                  VDict [("rate",
                    VDict [("perMile",
                            VDict [("rateUsd", VFloat (decimal 2 0))])])])];
                       VStr "never read"])])) =
  VFloat (decimal 2 0).
Proof.
  destruct (first_rate_response_is_read
              [("rateResponses",
                VList [VDict [("response",
                  VDict [("rate",
                    VDict [("perMile",
                            VDict [("rateUsd", VFloat (decimal 2 0))])])])];
                       VStr "never read"])]
              [("response",
                VDict [("rate",
                  VDict [("perMile", VDict [("rateUsd", VFloat (decimal 2 0))])])])]
              [("rate",
                VDict [("perMile", VDict [("rateUsd", VFloat (decimal 2 0))])])]
              [("perMile", VDict [("rateUsd", VFloat (decimal 2 0))])]
              [VStr "never read"]
              eq_refl eq_refl eq_refl eq_refl) as [H _].
  rewrite (H [("rateUsd", VFloat (decimal 2 0))] (VFloat (decimal 2 0))
             eq_refl eq_refl).
  reflexivity.
Defined.

(** X10: an answer with no [error] entry and no rate responses, the
    entry missing or holding an empty list, sets none of the three
    variables, and the processed match gets no [marketData]. *)
Theorem answer_without_rate_responses :
  forall body : list (string * value),
    assoc "error" body = None ->
    assoc "rateResponses" body = None \/
    assoc "rateResponses" body = Some (VList []) ->
    market_of_response (VDict body) = no_locals /\
    forall processed_match,
      add_market_data (market_of_response (VDict body)) processed_match =
      Ok processed_match.
Proof.
  intros body He Hr.
  assert (H : market_of_response (VDict body) = no_locals).
  { run_try. rewrite He. destruct Hr as [Hr | Hr]; rewrite Hr; reflexivity. }
  split; [exact H |]. intros processed_match. now rewrite H.
Qed.

Lemma answer_without_rate_responses_witness :
  market_of_response (VDict [("rateResponses", VList [])]) = no_locals.
Proof.
  exact (proj1 (answer_without_rate_responses [("rateResponses", VList [])]
                  eq_refl (or_intror eq_refl))).
Defined.

(** X11: the rate of the first response is kept as the rate data
    before anything is read from it.  When it is true as a condition
    and no mapping (a number, a string, a list), the entry of the
    market data is built from it outside the [try], and its [.get]
    raises an AttributeError that nothing in the loop catches. *)
Theorem rate_that_is_no_mapping_raises :
  forall (body first response_obj : list (string * value))
         (others : list value) (rate : value),
    assoc "error" body = None ->
    assoc "rateResponses" body = Some (VList (VDict first :: others)) ->
    assoc "response" first = Some (VDict response_obj) ->
    assoc "rate" response_obj = Some rate ->
    is_dict rate = false -> truthy rate = true ->
    rate_data (market_of_response (VDict body)) = rate /\
    forall processed_match,
      add_market_data (market_of_response (VDict body)) processed_match =
      Raise (no_attribute rate "get").
Proof.
  intros body first response_obj others rate He Hr Hf Hrate Hdict Htrue.
  assert (H : rate_data (market_of_response (VDict body)) = rate).
  { run_try. rewrite He, Hr. cbn [truthy py_len rbind py_getitem0 py_get].
    rewrite Hf. cbn [py_contains py_getitem]. rewrite Hrate.
    destruct rate as [| b | z | f | s | l | d]; try discriminate;
      cbn [py_contains py_getitem rbind]; try reflexivity.
    - destruct (is_substring "perMile" s); reflexivity.
    - destruct (existsb (is_str "perMile") l); reflexivity. }
  split; [exact H |]. intros processed_match.
  unfold add_market_data. rewrite H, Htrue.
  destruct rate; try discriminate; reflexivity.
Qed.

Lemma rate_that_is_no_mapping_raises_witness :
  add_market_data
    (market_of_response
       (VDict [("rateResponses",
                VList [VDict [("response", VDict [("rate", VInt 2)])]])]))
    [("matchId", VStr "a")] =
  Raise (Exn AttributeError "'int' object has no attribute 'get'").
Proof.
  exact (proj2 (rate_that_is_no_mapping_raises
                  [("rateResponses",
                    VList [VDict [("response", VDict [("rate", VInt 2)])]])]
                  [("response", VDict [("rate", VInt 2)])]
                  [("rate", VInt 2)] [] (VInt 2)
                  eq_refl eq_refl eq_refl eq_refl eq_refl eq_refl)
               [("matchId", VStr "a")]).
Defined.

(** ** The processed match *)

Lemma dict_set_new (key : string) (v : value) (d : list (string * value)) :
  assoc key d = None -> dict_set key v d = (d ++ [(key, v)])%list.
Proof.
  induction d as [| [k x] d IH]; simpl; [reflexivity |].
  destruct (String.eqb key k); [discriminate |].
  intros H. now rewrite IH.
Qed.



Lemma add_market_data_appends (found : locals)
    (processed_match result : list (string * value)) :
  assoc "marketData" processed_match = None ->
  add_market_data found processed_match = Ok result ->
  result = processed_match \/
  exists market, result = (processed_match ++ [("marketData", VDict market)])%list.
Proof.
  intros Hnew H. unfold add_market_data, rbind in H.
  split_matches; injection H as <-; try (now left);
    right; eexists; now apply dict_set_new.
Qed.

Section Entry.
Context {env : Env}.

(** X13: a processed match reports its own match: the matchId, the
    cities and states of the two places, the equipment code with the
    category it maps to, the trip miles, the comparison of its broker
    rate and its driver pay, in that order, and after them at most one
    more entry, the market data. *)
Theorem processed_match_reports_its_match :
  forall (m access_token processed_match : value) (w w' : world),
    process_match m access_token w = (Ok (Some processed_match), w') ->
    exists match_id info origin place code miles broker market comparison pay
           origin_city origin_state destination_city destination_state rest,
      match_places m = Ok (match_id, info, origin, place) /\
      py_get info "equipmentType" (VStr "") = Ok code /\
      trip_miles m = Ok miles /\
      get_broker_rate_per_mile m = Ok broker /\
      get_rate_comparison broker market = Ok comparison /\
      calculate_driver_pay m = Ok pay /\
      py_get origin "city" (VStr "") = Ok origin_city /\
      py_get origin "stateProv" (VStr "") = Ok origin_state /\
      py_get place "city" (VStr "") = Ok destination_city /\
      py_get place "stateProv" (VStr "") = Ok destination_state /\
      processed_match =
      VDict ([("matchId", match_id);
              ("origin", VDict [("city", origin_city); ("state", origin_state)]);
              ("destination", VDict [("city", destination_city);
                                     ("state", destination_state)]);
              ("equipmentType",
               VDict [("code", code);
                      ("rateviewType",
                       VStr (map_equipment_code_to_rateview code))]);
              ("tripMiles", miles);
              ("rateComparison", comparison);
              ("driver_pay", pay)] ++ rest)%list /\
      (rest = [] \/ exists market_entry, rest = [("marketData", VDict market_entry)]).
Proof.
  intros m access_token processed_match w w'.
  unfold process_match, bind, lift, ret.
  destruct (match_places m) as [[[[match_id info] origin] place] | e] eqn:Hplaces;
    [| discriminate].
  cbv zeta.
  destruct (missing_place origin place); [discriminate |].
  unfold build_processed_match, bind, lift, rbind.
  intros H. split_matches.
  repeat match goal with
         | E : (_, _) = (_, _) |- _ => injection E as E; subst
         | E : Ok _ = Ok _ |- _ => injection E as E; subst
         end.
  match goal with
  | E : add_market_data _ _ = Ok _ |- _ =>
      apply add_market_data_appends in E; [| reflexivity];
      destruct E as [-> | [market_entry ->]]
  end.
  - do 14 eexists. exists [].
    repeat (split; [eassumption || reflexivity |]). now left.
  - do 14 eexists. exists [("marketData", VDict market_entry)].
    repeat (split; [eassumption || reflexivity |]).
    right; eexists; reflexivity.
Qed.

End Entry.

Lemma processed_match_reports_its_match_witness :
  exists processed_match miles pay,
    process_match (env := scripted) match_c sample_token [server_error] =
    (Ok (Some processed_match), []) /\
    trip_miles match_c = Ok miles /\
    calculate_driver_pay match_c = Ok pay /\
    py_getitem processed_match "tripMiles" = Ok miles /\
    py_getitem processed_match "driver_pay" = Ok pay.
Proof.
  destruct (process_match (env := scripted) match_c sample_token [server_error])
    as [[[processed_match |] | e] w'] eqn:Hrun;
    try (vm_compute in Hrun; discriminate Hrun).
  assert (Hw : w' = []) by (vm_compute in Hrun; now injection Hrun).
  subst w'.
  destruct (processed_match_reports_its_match (env := scripted)
              match_c sample_token processed_match [server_error] [] Hrun)
    as (match_id & info & origin & place & code & miles & broker & market &
        comparison & pay & oc & os & dc & ds & rest &
        _ & _ & Hmiles & _ & _ & Hpay & _ & _ & _ & _ & -> & _).
  exists (VDict ([("matchId", match_id);
                  ("origin", VDict [("city", oc); ("state", os)]);
                  ("destination", VDict [("city", dc); ("state", ds)]);
                  ("equipmentType",
                   VDict [("code", code);
                          ("rateviewType",
                           VStr (map_equipment_code_to_rateview code))]);
                  ("tripMiles", miles);
                  ("rateComparison", comparison);
                  ("driver_pay", pay)] ++ rest)%list), miles, pay.
  repeat split; try assumption; reflexivity.
Defined.

(** ** The batch and the job *)

Section BatchEdges.
Context {env : Env}.

Lemma call_returns_on_mappings (origin place : value) (equipment : string)
    (access_token answer : value) (w w' : world) :
  call_rateview_api origin place equipment access_token w = (Ok answer, w') ->
  is_dict origin = true /\ is_dict place = true.
Proof.
  unfold call_rateview_api, bind, lift, lookup_payload.
  destruct origin; destruct place; simpl; try discriminate.
  intros _. split; reflexivity.
Qed.

Lemma py_truediv_float (a b v : value) :
  py_truediv a b = Ok v -> exists f, v = VFloat f.
Proof.
  unfold py_truediv, arith, rbind. intros H. split_matches.
  injection H as <-.
  unfold num_truediv, rbind in *. split_matches;
    match goal with
    | E : Ok _ = Ok _ |- _ => injection E as <-
    end; eexists; reflexivity.
Qed.

(** The broker rate is [None] or a number. *)
Lemma broker_rate_is_a_rate (load broker : value) :
  get_broker_rate_per_mile load = Ok broker ->
  exists missing, none_or_le0 broker = Ok missing.
Proof.
  unfold get_broker_rate_per_mile, rbind. intros H. split_matches;
    try (injection H as <-; eexists; reflexivity);
    try (destruct (py_truediv_float _ _ _ H) as [f ->]; eexists; reflexivity).
  match goal with
  | E1 : py_get load "estimatedRatePerMile" _ = Ok ?v,
    E2 : py_gt0 ?v = Ok true |- _ =>
      rewrite (get_positive_is_getitem _ _ _ E1 E2) in H; injection H as <-;
      exists false; now apply py_gt0_none_or_le0
  end.
Qed.

Lemma driver_pay_reads_miles (load pay : value) :
  calculate_driver_pay load = Ok pay -> exists miles, trip_miles load = Ok miles.
Proof.
  unfold calculate_driver_pay, rbind.
  destruct (trip_miles load) as [miles | e]; [| discriminate].
  intros _. eexists; reflexivity.
Qed.

(** X14: a lookup that fails does not fail its match.  When the
    client answers with an error record (a status that is not 200 or
    201, an exception of the transport), the match is still processed:
    its market data is that error alone and its comparison is the one
    of a missing market rate. *)
Theorem failed_lookup_is_reported :
  forall (m access_token : value) (w w' : world)
         (match_id info origin place code broker pay : value)
         (answer : list (string * value)) (message : value),
    match_places m = Ok (match_id, info, origin, place) ->
    missing_place origin place = false ->
    py_get info "equipmentType" (VStr "") = Ok code ->
    get_broker_rate_per_mile m = Ok broker ->
    calculate_driver_pay m = Ok pay ->
    call_rateview_api origin place (map_equipment_code_to_rateview code)
      access_token w = (Ok (VDict answer), w') ->
    assoc "error" answer = Some message ->
    exists entry no_broker,
      process_match m access_token w = (Ok (Some (VDict entry)), w') /\
      none_or_le0 broker = Ok no_broker /\
      assoc "rateComparison" entry =
      Some (comparison_record
              (if no_broker then VStr "Not Available" else broker)
              (VStr "Not Available") (VStr "N/A")
              (VStr "Rate comparison not possible")) /\
      assoc "driver_pay" entry = Some pay /\
      assoc "marketData" entry = Some (VDict [("error", message)]).
Proof.
  intros m access_token w w' match_id info origin place code broker pay
         answer message Hplaces Hpresent Hcode Hbroker Hpay Hcall Herror.
  destruct (call_returns_on_mappings _ _ _ _ _ _ _ Hcall) as [Ho Hp].
  destruct (broker_rate_is_a_rate _ _ Hbroker) as [no_broker Hrate].
  destruct (driver_pay_reads_miles _ _ Hpay) as [miles Hmiles].
  destruct origin as [| | | | | | o]; try discriminate.
  destruct place as [| | | | | | p]; try discriminate.
  eexists. exists no_broker.
  split; [| split; [exact Hrate |]].
  - unfold process_match, bind, lift, ret. rewrite Hplaces. cbv zeta.
    rewrite Hpresent. unfold build_processed_match, bind, lift.
    rewrite Hcode, Hbroker, Hpay, Hcall.
    rewrite (error_record_read answer message Herror).
    cbn [market_rate_per_mile].
    unfold get_rate_comparison, not_available_or. rewrite Hrate.
    cbn [rbind none_or_le0].
    replace (if no_broker then Ok true else Ok true) with (@Ok bool true)
      by now destruct no_broker.
    cbn [rbind py_get]. rewrite Hmiles. cbn [rbind].
    unfold add_market_data, truthy_and_contains.
    cbn [rate_data market_data truthy py_contains py_getitem assoc
         String.eqb Ascii.eqb Bool.eqb rbind dict_set].
    reflexivity.
  - cbn [assoc String.eqb Ascii.eqb Bool.eqb]. repeat split.
Qed.

End BatchEdges.

Lemma failed_lookup_is_reported_witness :
  exists entry,
    process_match (env := scripted) match_c sample_token [server_error] =
    (Ok (Some (VDict entry)), []) /\
    assoc "marketData" entry = Some (VDict [("error", VStr "API Error: 500")]).
Proof.
  destruct (failed_lookup_is_reported (env := scripted)
              match_c sample_token [server_error] []
              (VStr "c")
              (VDict [("equipmentType", VStr "R");
                      ("origin", place "Boston" "MA");
                      ("destination", dallas)])
              (place "Boston" "MA") (place "Dallas" "TX") (VStr "R") VNone
              (driver_pay_record (VStr "Not Available") "insufficient_data")
              [("error", VStr "API Error: 500");
               ("detail", VStr "Internal Server Error")]
              (VStr "API Error: 500")
              eq_refl eq_refl eq_refl eq_refl eq_refl eq_refl eq_refl)
    as (entry & no_broker & Hrun & _ & _ & _ & Hmarket).
  exists entry. split; assumption.
Defined.

Section BatchRuns.
Context {env : Env}.

Lemma outcomes_stop_at_raise (access_token bad : value) (after : list value)
    (e : exn) (before : list value) :
  forall (outcomes : list (option value)) (w w1 w2 : world),
    outcomes_of before access_token w = (Ok outcomes, w1) ->
    process_match bad access_token w1 = (Raise e, w2) ->
    outcomes_of (before ++ bad :: after) access_token w = (Raise e, w2).
Proof.
  induction before as [| m before IH]; intros outcomes w w1 w2.
  - cbn [outcomes_of app]. unfold ret, bind. intros H. injection H as _ <-.
    intros Hbad. now rewrite Hbad.
  - cbn [outcomes_of app]. unfold ret, bind.
    destruct (process_match m access_token w) as [[outcome | e'] w0];
      [| discriminate].
    destruct (outcomes_of before access_token w0) as [[others | e'] w0'] eqn:Hb;
      [| discriminate].
    intros H. injection H as _ <-. intros Hbad.
    now rewrite (IH _ _ _ _ Hb Hbad).
Qed.

(** X15: a match that raises ends the batch.  What the matches
    before it gave is dropped, the matches after it are not processed
    and nothing is sent for them, the batch raises what the match
    raised, and the handler answers with the processing error of that
    message. *)
Theorem raising_match_aborts_batch :
  forall (loads access_token counts bad : value) (before after : list value)
         (outcomes : list (option value)) (e : exn) (w w1 w2 : world),
    py_get loads "matchCounts" (VDict []) = Ok counts ->
    py_get loads "matches" (VList []) = Ok (VList (before ++ bad :: after)) ->
    outcomes_of before access_token w = (Ok outcomes, w1) ->
    process_match bad access_token w1 = (Raise e, w2) ->
    process_loads_and_compare_rates loads access_token w = (Raise e, w2) /\
    (forall (job : value) (input : list (string * value)),
       py_getitem job "input" = Ok (VDict input) ->
       py_get (VDict input) "freight_data" VNone = Ok loads ->
       py_get (VDict input) "access_token" VNone = Ok access_token ->
       truthy access_token = true ->
       handler job w =
       (Ok (error_record ("Processing error: " ++ exn_msg e)), w2)).
Proof.
  intros loads access_token counts bad before after outcomes e w w1 w2
         Hcounts Hmatches Hbefore Hbad.
  assert (Hrun : process_loads_and_compare_rates loads access_token w =
                 (Raise e, w2)).
  { unfold process_loads_and_compare_rates, bind, lift, ret.
    rewrite Hcounts, Hmatches. cbn [py_iter].
    rewrite for_matches_outcomes. unfold bind, ret.
    now rewrite (outcomes_stop_at_raise _ _ after _ _ _ _ _ _ Hbefore Hbad). }
  split; [exact Hrun |].
  intros job input Hinput Hfreight Htoken Htrue.
  assert (Hloads : truthy loads = true).
  { destruct loads as [| | | | | | d]; try discriminate.
    destruct d; [| reflexivity].
    simpl in Hmatches. injection Hmatches as Hmatches.
    now destruct before. }
  unfold handler, bind, lift, ret, try_except.
  rewrite Hinput. cbn [is_dict negb]. rewrite Hfreight, Htoken.
  rewrite Hloads, Htrue. cbn [negb].
  unfold process_freight_data. now rewrite Hrun.
Qed.

Lemma for_matches_all_skipped (access_token : value) (matches : list value) :
  (forall m, In m matches ->
     forall w, process_match m access_token w = (Ok None, w)) ->
  forall w, for_matches matches access_token [] w = (Ok [], w).
Proof.
  induction matches as [| m rest IH]; intros Hskip w; [reflexivity |].
  cbn [for_matches]. unfold bind.
  rewrite (Hskip m (or_introl eq_refl)).
  apply IH. intros m' Hin. apply Hskip. now right.
Qed.

(** X16: when every match of the batch is skipped, and so when there
    is none, the result is the count summary with an empty list of
    processed matches, and nothing is sent. *)
Theorem batch_of_skipped_matches :
  forall (loads access_token counts : value) (matches : list value),
    py_get loads "matchCounts" (VDict []) = Ok counts ->
    py_get loads "matches" (VList []) = Ok (VList matches) ->
    (forall m, In m matches ->
       forall w, process_match m access_token w = (Ok None, w)) ->
    forall w,
      process_loads_and_compare_rates loads access_token w =
      (Ok (VDict [("matchCounts", counts); ("processedMatches", VList [])]), w).
Proof.
  intros loads access_token counts matches Hcounts Hmatches Hskip w.
  unfold process_loads_and_compare_rates, bind, lift, ret.
  rewrite Hcounts, Hmatches. cbn [py_iter].
  now rewrite (for_matches_all_skipped access_token matches Hskip).
Qed.

End BatchRuns.

Lemma raising_match_aborts_batch_witness :
  process_loads_and_compare_rates (env := scripted)
    (freight_of [match_a; VInt 7; match_c]) sample_token
    [rate_answer; server_error] =
  (Raise (Exn AttributeError "'int' object has no attribute 'get'"),
   [server_error]).
Proof.
  destruct (outcomes_of (env := scripted) [match_a] sample_token
              [rate_answer; server_error]) as [[outcomes | e] w1] eqn:Hbefore;
    [| vm_compute in Hbefore; discriminate Hbefore].
  assert (Hw : w1 = [server_error])
    by (vm_compute in Hbefore; now injection Hbefore).
  subst w1.
  exact (proj1 (raising_match_aborts_batch (env := scripted)
                  (freight_of [match_a; VInt 7; match_c]) sample_token
                  sample_counts (VInt 7) [match_a] [match_c] outcomes
                  (Exn AttributeError "'int' object has no attribute 'get'")
                  [rate_answer; server_error] [server_error] [server_error]
                  eq_refl eq_refl Hbefore eq_refl)).
Defined.

Lemma batch_of_skipped_matches_witness :
  process_loads_and_compare_rates (env := scripted)
    (freight_of [match_b; match_d]) sample_token [rate_answer] =
  (Ok (VDict [("matchCounts", sample_counts); ("processedMatches", VList [])]),
   [rate_answer]).
Proof.
  apply (batch_of_skipped_matches (env := scripted)
           (freight_of [match_b; match_d]) sample_token sample_counts
           [match_b; match_d] eq_refl eq_refl).
  intros m [<- | [<- | []]] w; reflexivity.
Defined.

Section BatchShape.
Context {env : Env}.

Lemma processed_match_is_mapping (m access_token processed_match : value)
    (w w' : world) :
  process_match m access_token w = (Ok (Some processed_match), w') ->
  is_dict processed_match = true.
Proof.
  unfold process_match, bind, lift, ret.
  destruct (match_places m) as [[[[match_id info] origin] place] | e];
    [| discriminate].
  cbv zeta. destruct (missing_place origin place); [discriminate |].
  unfold build_processed_match, bind, lift, rbind.
  intros H. split_matches.
  repeat match goal with
         | E : (_, _) = (_, _) |- _ => injection E as E; subst
         | E : Ok _ = Ok _ |- _ => injection E as E; subst
         end.
  reflexivity.
Qed.

Lemma kept_are_mappings (access_token : value) (matches : list value) :
  forall (outcomes : list (option value)) (w w' : world),
    outcomes_of matches access_token w = (Ok outcomes, w') ->
    Forall (fun p => is_dict p = true) (kept outcomes) /\
    (List.length (kept outcomes) <= List.length matches)%nat.
Proof.
  induction matches as [| m rest IH]; intros outcomes w w'.
  - cbn [outcomes_of]. unfold ret. intros H. injection H as <- _.
    split; [constructor | apply le_n].
  - cbn [outcomes_of]. unfold bind, ret.
    destruct (process_match m access_token w) as [[outcome | e] w1] eqn:Hm;
      [| discriminate].
    destruct (outcomes_of rest access_token w1) as [[others | e] w2] eqn:Hrest;
      [| discriminate].
    intros H. injection H as <- <-.
    destruct (IH _ _ _ Hrest) as [Hall Hlength].
    destruct outcome as [processed_match |]; cbn [kept List.length].
    + split.
      * constructor; [| exact Hall].
        exact (processed_match_is_mapping _ _ _ _ _ Hm).
      * now apply le_n_S.
    + split; [exact Hall | now apply le_S].
Qed.

(** X17: the result of a batch is the mapping of two entries, the
    count summary of the input and then the list of the processed
    matches; every processed match is a mapping, and there are at most
    as many of them as matches in the input. *)
Theorem batch_result_shape :
  forall (loads access_token result : value) (matches : list value)
         (w w' : world),
    py_get loads "matches" (VList []) = Ok (VList matches) ->
    process_loads_and_compare_rates loads access_token w = (Ok result, w') ->
    exists counts processed,
      py_get loads "matchCounts" (VDict []) = Ok counts /\
      result = VDict [("matchCounts", counts);
                      ("processedMatches", VList processed)] /\
      Forall (fun p => is_dict p = true) processed /\
      (List.length processed <= List.length matches)%nat.
Proof.
  intros loads access_token result matches w w' Hmatches.
  unfold process_loads_and_compare_rates, bind, lift, ret.
  destruct (py_get loads "matchCounts" (VDict [])) as [counts | e];
    [| discriminate].
  rewrite Hmatches. cbn [py_iter]. rewrite for_matches_outcomes.
  unfold bind, ret.
  destruct (outcomes_of matches access_token w) as [[outcomes | e] w1] eqn:Hout;
    [| discriminate].
  intros H. injection H as <- _.
  destruct (kept_are_mappings _ _ _ _ _ Hout) as [Hall Hlength].
  exists counts, (kept outcomes). repeat split; assumption.
Qed.

(** X19: the handler tests the freight data for truth only, not for
    being a mapping: freight data that is true as a condition and no
    mapping (a list, a string, a number) passes the validation, and
    the AttributeError of its first [.get] comes back as a processing
    error; nothing is sent. *)
Theorem freight_data_that_is_no_mapping :
  forall (job freight_data access_token : value)
         (input : list (string * value)) (w : world),
    py_getitem job "input" = Ok (VDict input) ->
    py_get (VDict input) "freight_data" VNone = Ok freight_data ->
    py_get (VDict input) "access_token" VNone = Ok access_token ->
    truthy freight_data = true -> truthy access_token = true ->
    is_dict freight_data = false ->
    handler job w =
    (Ok (error_record
           ("Processing error: " ++ exn_msg (no_attribute freight_data "get"))),
     w).
Proof.
  intros job freight_data access_token input w
         Hinput Hfreight Htoken Hf Ht Hdict.
  unfold handler, bind, lift, ret, try_except.
  rewrite Hinput. cbn [is_dict negb]. rewrite Hfreight, Htoken, Hf, Ht.
  cbn [negb].
  unfold process_freight_data, process_loads_and_compare_rates, bind, lift.
  destruct freight_data; try discriminate; reflexivity.
Qed.

End BatchShape.

Lemma batch_result_shape_witness :
  exists processed,
    fst (process_loads_and_compare_rates (env := scripted)
           (freight_of [match_a; match_b; match_c]) sample_token
           [rate_answer; server_error]) =
    Ok (VDict [("matchCounts", sample_counts);
               ("processedMatches", VList processed)]) /\
    (List.length processed <= 3)%nat.
Proof.
  destruct (process_loads_and_compare_rates (env := scripted)
              (freight_of [match_a; match_b; match_c]) sample_token
              [rate_answer; server_error]) as [[result | e] w'] eqn:Hrun;
    [| vm_compute in Hrun; discriminate Hrun].
  destruct (batch_result_shape (env := scripted)
              (freight_of [match_a; match_b; match_c]) sample_token result
              [match_a; match_b; match_c] [rate_answer; server_error] w'
              eq_refl Hrun)
    as (counts & processed & Hcounts & -> & _ & Hlength).
  injection Hcounts as <-. exists processed. split; [reflexivity | exact Hlength].
Defined.

Lemma freight_data_that_is_no_mapping_witness :
  handler (env := scripted)
    (VDict [("input", VDict [("freight_data", VStr "loads");
                             ("access_token", sample_token)])])
    [rate_answer] =
  (Ok (error_record "Processing error: 'str' object has no attribute 'get'"),
   [rate_answer]).
Proof.
  exact (freight_data_that_is_no_mapping (env := scripted)
           (VDict [("input", VDict [("freight_data", VStr "loads");
                                    ("access_token", sample_token)])])
           (VStr "loads") sample_token
           [("freight_data", VStr "loads"); ("access_token", sample_token)]
           [rate_answer] eq_refl eq_refl eq_refl eq_refl eq_refl eq_refl).
Defined.

(** ** The requests sent *)

Section Requests.
Context {env : Env}.

Lemma call_posts_once (origin place : value) (equipment : string)
    (access_token answer : value) (s s' : @world (counted env)) :
  call_rateview_api (env := counted env) origin place equipment access_token s =
  (Ok answer, s') ->
  snd s' = S (snd s).
Proof.
  unfold call_rateview_api, bind, lift, try_except, post_lookup, ret.
  destruct (lookup_payload origin place equipment) as [payload | e];
    [| discriminate].
  cbn [requests_post counted].
  destruct (@requests_post env url (request_headers (env := counted env)
                                      access_token) payload (fst s))
    as [[r | e] w1].
  - destruct ((status_code r =? 200) || (status_code r =? 201)).
    + destruct (json r); intros H; now injection H as _ <-.
    + intros H; now injection H as _ <-.
  - intros H; now injection H as _ <-.
Qed.

Lemma process_match_posts (m access_token : value) (outcome : option value)
    (s s' : @world (counted env)) :
  process_match (env := counted env) m access_token s = (Ok outcome, s') ->
  snd s' = match outcome with
           | Some _ => S (snd s)
           | None => snd s
           end.
Proof.
  unfold process_match, bind, lift, ret.
  destruct (match_places m) as [[[[match_id info] origin] place] | e];
    [| discriminate].
  cbv zeta. destruct (missing_place origin place).
  - intros H. now injection H as <- <-.
  - unfold build_processed_match, bind, lift.
    destruct (py_get info "equipmentType" (VStr "")) as [code | e];
      [| discriminate].
    destruct (get_broker_rate_per_mile m) as [broker | e]; [| discriminate].
    destruct (calculate_driver_pay m) as [pay | e]; [| discriminate].
    destruct (call_rateview_api (env := counted env) origin place
                (map_equipment_code_to_rateview code) access_token s)
      as [[answer | e] s1] eqn:Hcall; [| discriminate].
    apply call_posts_once in Hcall.
    match goal with
    | |- match ?r with _ => _ end = _ -> _ => destruct r; [| discriminate]
    end.
    intros H. now injection H as <- <-.
Qed.

Lemma outcomes_post (access_token : value) (matches : list value) :
  forall (outcomes : list (option value)) (s s' : @world (counted env)),
    outcomes_of (env := counted env) matches access_token s = (Ok outcomes, s') ->
    snd s' = (snd s + List.length (kept outcomes))%nat.
Proof.
  induction matches as [| m rest IH]; intros outcomes s s'.
  - cbn [outcomes_of]. unfold ret. intros H. injection H as <- <-.
    cbn [kept List.length]. now rewrite Nat.add_0_r.
  - cbn [outcomes_of]. unfold bind, ret.
    destruct (process_match (env := counted env) m access_token s)
      as [[outcome | e] s1] eqn:Hm; [| discriminate].
    destruct (outcomes_of (env := counted env) rest access_token s1)
      as [[others | e] s2] eqn:Hrest; [| discriminate].
    intros H. injection H as <- <-.
    rewrite (IH _ _ _ Hrest), (process_match_posts _ _ _ _ _ Hm).
    destruct outcome; cbn [kept List.length]; lia.
Qed.

(** X18: over a transport that counts what it is asked to post, a
    batch that returns has sent as many requests as its result lists
    processed matches: one for each of them, none for a skipped match
    and none a second time. *)
Theorem one_request_per_processed_match :
  forall (loads access_token result : value) (s s' : @world (counted env)),
    process_loads_and_compare_rates (env := counted env) loads access_token s =
    (Ok result, s') ->
    exists processed,
      py_getitem result "processedMatches" = Ok (VList processed) /\
      snd s' = (snd s + List.length processed)%nat.
Proof.
  intros loads access_token result s s'.
  unfold process_loads_and_compare_rates, bind, lift, ret.
  destruct (py_get loads "matchCounts" (VDict [])) as [counts | e];
    [| discriminate].
  destruct (py_get loads "matches" (VList [])) as [matches | e];
    [| discriminate].
  destruct (py_iter matches) as [items | e]; [| discriminate].
  rewrite for_matches_outcomes. unfold bind, ret.
  destruct (outcomes_of (env := counted env) items access_token s)
    as [[outcomes | e] s1] eqn:Hout; [| discriminate].
  intros H. injection H as <- <-.
  exists (kept outcomes). split; [reflexivity |].
  exact (outcomes_post _ _ _ _ _ Hout).
Qed.

End Requests.

Lemma one_request_per_processed_match_witness :
  snd (snd (process_loads_and_compare_rates (env := counted scripted)
              (freight_of [match_a; match_b; match_c]) sample_token
              ([rate_answer; server_error], 0%nat))) = 2%nat.
Proof.
  destruct (process_loads_and_compare_rates (env := counted scripted)
              (freight_of [match_a; match_b; match_c]) sample_token
              ([rate_answer; server_error], 0%nat)) as [[result | e] s'] eqn:Hrun;
    [| vm_compute in Hrun; discriminate Hrun].
  destruct (one_request_per_processed_match (env := scripted) _ _ _ _ _ Hrun)
    as (processed & Hprocessed & Hcount).
  cbn [snd]. rewrite Hcount.
  vm_compute in Hrun. injection Hrun as <- _.
  cbn in Hprocessed. injection Hprocessed as <-. reflexivity.
Defined.
